(** * Authentication backend (src/main.py): register, login, /auth/me

    A shallow embedding of the auth utilities, the helpers and the three
    auth endpoints of [main.py], and theorems about them.

    The handlers run in a small state-and-exception monad over a [World]
    holding what the Python code reaches through ambient state: the
    [database.db] handle with the [authuser] collection, the system
    clock, and the generators of ObjectIds and bcrypt salts.  The
    third-party packages the code calls (pydantic, passlib, python-jose)
    enter through the interface [Libs]; what [main.py] itself does with
    their results is modelled line by line. *)

From Stdlib Require Import Ascii String.
From stdpp Require Import gmap strings list pretty.

Local Open Scope string_scope.
Local Open Scope Z_scope.

(** ** Python values and documents *)

(** A Python [float]: a finite binary fraction [m * 2^e], an infinity
    or a NaN.  The JSON reader produces one for a number written with a
    fraction or an exponent; [1e400] and [Infinity] read as the positive
    infinity, [NaN] as a NaN. *)
Inductive Float :=
| Finite (m e : Z)
| Infinite (negative : bool)
| NaN.

#[global] Instance Float_eq_dec : EqDecision Float.
Proof. solve_decision. Defined.

(** The values that occur in user documents, request bodies and token
    claims.  Datetimes are microseconds since the epoch (the resolution
    of [datetime]); an ObjectId is carried as its 24-digit hex form; a
    float is carried with the text [str] prints for it. *)
Inductive Value :=
| VNone
| VBool (b : bool)
| VInt (n : Z)
| VFloat (x : Float) (repr : string)
| VStr (s : string)
| VDatetime (us : Z)
| VObjectId (hex : string).

#[global] Instance Value_eq_dec : EqDecision Value.
Proof. solve_decision. Defined.

(** [x != 0.0]: both zeros are false, a NaN is true. *)
Definition float_nonzero (x : Float) : bool :=
  match x with
  | Finite m _ => negb (Z.eqb m 0)
  | _ => true
  end.

(** A Python [dict] with string keys: a Mongo document, a JSON object,
    a claims set. *)
Abbreviation Doc := (gmap string Value).

(** [d.get(k)]: the value, or [None] when the key is absent. *)
Definition dict_get (d : Doc) (k : string) : Value :=
  default VNone (d !! k).

(** [d.get(k, dflt)]. *)
Definition dict_get_default (d : Doc) (k : string) (dflt : Value) : Value :=
  default dflt (d !! k).

(** Truth value of a Python object, as tested by [if x] / [not x]. *)
Definition truthy (v : Value) : bool :=
  match v with
  | VNone => false
  | VBool b => b
  | VInt n => negb (Z.eqb n 0)
  | VFloat x _ => float_nonzero x
  | VStr s => negb (String.eqb s "")
  | VDatetime _ => true
  | VObjectId _ => true
  end.

(** Truth value of a [dict]: false exactly when it is empty. *)
Definition dict_truthy (d : Doc) : bool := negb (bool_decide (d = ∅)).

(** Truth value of the result of [find_one]: [None] or a document. *)
Definition doc_opt_truthy (o : option Doc) : bool :=
  match o with
  | None => false
  | Some d => dict_truthy d
  end.

(** ** Exceptions and results *)

Inductive Exception :=
| HTTPException (status_code : Z) (detail : string)
    (* fastapi.HTTPException *)
| JWTError (msg : string)
    (* jose.JWTError: bad signature, malformed token *)
| ExpiredSignatureError
    (* jose.ExpiredSignatureError, a subclass of JWTError *)
| JWTClaimsError (msg : string)
    (* jose.JWTClaimsError, a subclass of JWTError *)
| UnknownHashError
    (* passlib.exc.UnknownHashError: no scheme identifies the hash *)
| ExpectedStringError
    (* passlib.exc.ExpectedStringError, a TypeError *)
| PasslibError (name : string)
    (* any other exception raised inside the bcrypt handler *)
| ValidationError
    (* pydantic.ValidationError raised while building a model *)
| RequestValidationError
    (* fastapi: the request body does not parse into the body model *)
| DuplicateKeyError
    (* pymongo.errors.DuplicateKeyError *)
| TypeError (msg : string)
| OverflowError
    (* a datetime or timedelta out of range, [int] of an infinite float *)
| IndexError.

#[global] Instance Exception_eq_dec : EqDecision Exception.
Proof. solve_decision. Defined.

(** [isinstance(e, JWTError)]: what [except JWTError] catches. *)
Definition is_JWTError (e : Exception) : bool :=
  match e with
  | JWTError _ | ExpiredSignatureError | JWTClaimsError _ => true
  | _ => false
  end.

Inductive Result (A : Type) :=
| Ok (a : A)
| Raise (e : Exception).
Arguments Ok {A} a.
Arguments Raise {A} e.

(** The status FastAPI answers with: 200 for a returned value, the
    status of an [HTTPException], 422 for a body that does not
    validate, 500 for every other exception. *)
Definition http_status {A} (r : Result A) : Z :=
  match r with
  | Ok _ => 200
  | Raise (HTTPException c _) => c
  | Raise RequestValidationError => 422
  | Raise _ => 500
  end.

(** ** The world a request runs in *)

Record World := mkWorld {
  db : option (list Doc);
    (* [database.db] (database.py is not among the sources): [None]
       when no database is configured, else the documents of the
       [authuser] collection in insertion order *)
  clock : nat -> Z;
    (* the successive readings of the system clock, in microseconds *)
  clock_reads : nat;
    (* how many readings have been taken *)
  oids : nat -> string;
    (* the ObjectIds the driver generates, in order *)
  oid_count : nat;
  salts : nat -> string;
    (* the random salts passlib draws, in order *)
  salt_count : nat
}.

Definition set_db (w : World) (c : option (list Doc)) : World :=
  mkWorld c (clock w) (clock_reads w) (oids w) (oid_count w)
          (salts w) (salt_count w).

(** State-and-exception monad: a raised exception keeps the state
    reached so far, as in Python nothing is rolled back. *)
Definition M (A : Type) : Type := World -> Result A * World.

Definition ret {A} (a : A) : M A := fun w => (Ok a, w).
Definition raise {A} (e : Exception) : M A := fun w => (Raise e, w).
Definition bind {A B} (m : M A) (k : A -> M B) : M B :=
  fun w =>
    match m w with
    | (Ok a, w') => k a w'
    | (Raise e, w') => (Raise e, w')
    end.
Definition lift {A} (r : Result A) : M A := fun w => (r, w).

(** [try: m except JWTError: h] *)
Definition try_except_JWTError {A} (m : M A) (h : M A) : M A :=
  fun w =>
    match m w with
    | (Raise e, w') => if is_JWTError e then h w' else (Raise e, w')
    | r => r
    end.

Declare Scope py_scope.
Delimit Scope py_scope with py.
Notation "x <- m ;; k" := (bind m (fun x => k))
  (at level 100, m at next level, right associativity) : py_scope.
Notation "m ;;; k" := (bind m (fun _ => k))
  (at level 100, right associativity) : py_scope.
Local Open Scope py_scope.

(** [datetime.now(timezone.utc)]: one reading of the clock. *)
Definition datetime_now : M Z :=
  fun w =>
    (Ok (clock w (clock_reads w)),
     mkWorld (db w) (clock w) (S (clock_reads w)) (oids w) (oid_count w)
             (salts w) (salt_count w)).

(** A fresh [ObjectId()]. *)
Definition new_ObjectId : M string :=
  fun w =>
    (Ok (oids w (oid_count w)),
     mkWorld (db w) (clock w) (clock_reads w) (oids w) (S (oid_count w))
             (salts w) (salt_count w)).

(** The salt of one [pwd_context.hash] call. *)
Definition new_salt : M string :=
  fun w =>
    (Ok (salts w (salt_count w)),
     mkWorld (db w) (clock w) (clock_reads w) (oids w) (oid_count w)
             (salts w) (S (salt_count w))).

(** ** The document store (pymongo collection [db["authuser"]]) *)

(** Equality match of a one-field filter [{field: v}]: the field holds
    [v]; a filter value [None] also matches a document without the
    field.  The filter values of the code are strings, [None] and
    ObjectIds, which match by identity of the value. *)
Definition matches (field : string) (v : Value) (d : Doc) : bool :=
  match d !! field with
  | Some x => bool_decide (x = v)
  | None => bool_decide (v = VNone)
  end.

(** [col.find_one({field: v})]: the first matching document. *)
Definition find_one (field : string) (v : Value) (col : list Doc)
  : option Doc :=
  List.find (matches field v) col.

(** BSON stores datetimes with millisecond precision. *)
Definition bson_value (v : Value) : Value :=
  match v with
  | VDatetime us => VDatetime (us `div` 1000 * 1000)
  | _ => v
  end.

(** [col.insert_one(doc)]: the driver adds a fresh [_id] to [doc] itself
    when it has none, and the server refuses an [_id] it already holds.
    Returns the (mutated) [doc] and the new collection. *)
Definition insert_one (doc : Doc) (col : list Doc) : M (Doc * list Doc) :=
  doc' <- match doc !! "_id" with
          | Some _ => ret doc
          | None => oid <- new_ObjectId ;; ret (<["_id" := VObjectId oid]> doc)
          end ;;
  match find_one "_id" (dict_get doc' "_id") col with
  | Some _ => raise DuplicateKeyError
  | None => ret (doc', (col ++ [bson_value <$> doc'])%list)
  end.

(** The collection handle returned by [users_col()] refers to the live
    collection: the two operations below read and write [db] of the
    world.  They are reached only behind the guard of [users_col]; on a
    missing database Python would fail on [db["authuser"]]. *)
Definition col_find_one (field : string) (v : Value) : M (option Doc) :=
  fun w =>
    match db w with
    | Some col => (Ok (find_one field v col), w)
    | None => (Raise (TypeError "'NoneType' object is not subscriptable"), w)
    end.

Definition col_insert_one (doc : Doc) : M Doc :=
  fun w =>
    match db w with
    | Some col =>
        match insert_one doc col w with
        | (Ok (doc', col'), w') => (Ok doc', set_db w' (Some col'))
        | (Raise e, w') => (Raise e, w')
        end
    | None => (Raise (TypeError "'NoneType' object is not subscriptable"), w)
    end.

(** ** Strings *)

(** [str.lower] on the ASCII letters (the only ones the check of the
    bearer scheme can see). *)
Definition ascii_lower (c : ascii) : ascii :=
  let n := nat_of_ascii c in
  if (Nat.leb 65 n && Nat.leb n 90)%bool then ascii_of_nat (n + 32) else c.

Fixpoint lower (s : string) : string :=
  match s with
  | EmptyString => EmptyString
  | String c s' => String (ascii_lower c) (lower s')
  end.

(** [s.startswith(p)] *)
Definition startswith (s p : string) : bool := String.prefix p s.

(** [s.split(" ", 1)]: a one-element list when [s] has no space, else
    the text before the first space and the text after it. *)
Fixpoint split_space_1 (s : string) : list string :=
  match s with
  | EmptyString => [EmptyString]
  | String c s' =>
      if Ascii.eqb c " "%char then [EmptyString; s']
      else match split_space_1 s' with
           | [] => [String c EmptyString]
           | h :: t => String c h :: t
           end
  end.

(** [l[1]] *)
Definition index_1 (l : list string) : Result string :=
  match l !! 1%nat with
  | Some x => Ok x
  | None => Raise IndexError
  end.

(** [str(v)] *)
Definition py_str (datetime_str : Z -> string) (v : Value) : string :=
  match v with
  | VNone => "None"
  | VBool true => "True"
  | VBool false => "False"
  | VInt n => pretty n
  | VFloat _ repr => repr
  | VStr s => s
  | VDatetime us => datetime_str us
  | VObjectId hex => hex
  end.

(** ** Configuration (module-level constants of main.py) *)

Definition ALGORITHM : string := "HS256".

Record Config := mkConfig {
  SECRET_KEY : string;
    (* os.getenv("AUTH_SECRET", "dev-secret-change-me") *)
  ACCESS_TOKEN_EXPIRE_MINUTES : Z
    (* int(os.getenv("ACCESS_TOKEN_EXPIRE_MINUTES", "60")) *)
}.

Definition default_config : Config := mkConfig "dev-secret-change-me" 60.

(** ** Third-party packages *)

(** What the code calls in pydantic, passlib and python-jose, as far as
    it is computed outside this repository.  The bcrypt digest and the
    HMAC signature stay abstract; the control flow around them that
    decides the handlers' outcome is written out below. *)
Class Libs := mkLibs {
  email_validate : string -> option string;
    (* pydantic [EmailStr]: the normalised address, or [None] when the
       string is not an email address *)
  str_coerce : Value -> option string;
    (* pydantic [str] on a value that is not a [str] *)
  bcrypt_hash : string -> string -> Result string;
    (* passlib's bcrypt handler: hash a secret under a given salt *)
  bcrypt_verify : string -> string -> Result bool;
    (* passlib's bcrypt handler: check a secret against a hash string
       that carries a bcrypt prefix *)
  jws_sign : Doc -> string -> Result string;
    (* jose.jws.sign with HS256: serialise and sign a claims set *)
  jws_verify : string -> string -> option Doc;
    (* jose.jws.verify with HS256, then the JSON payload: [None] when
       the token is malformed or its signature does not verify *)
  int_of_str : string -> option Z;
    (* Python [int(s)]: [None] when it raises ValueError *)
  datetime_str : Z -> string
    (* [str(dt)] of a datetime *)
}.

(** ** Models (pydantic classes of main.py) *)

Record RegisterBody := mkRegisterBody {
  reg_email : string;          (* email: EmailStr *)
  reg_password : string;       (* password: str *)
  reg_name : option string     (* name: Optional[str] = None *)
}.

Record LoginBody := mkLoginBody {
  login_email : string;        (* email: EmailStr *)
  login_password : string      (* password: str *)
}.

Record UserOut := mkUserOut {
  id : string;
  email : string;
  name : option string
}.

Record TokenOut := mkTokenOut {
  access_token : string;
  token_type : string;
  user : UserOut
}.

Definition opt_str_value (o : option string) : Value :=
  match o with
  | Some s => VStr s
  | None => VNone
  end.

(** The JSON object FastAPI sends for a [UserOut] (serialisation
    through [response_model=UserOut]). *)
Definition UserOut_json (u : UserOut) : list (string * Value) :=
  [("id", VStr (id u)); ("email", VStr (email u));
   ("name", opt_str_value (name u))].

Section Main.
Context {L : Libs} (cfg : Config).

(** *** pydantic field validation *)

(** A field declared [EmailStr]. *)
Definition validate_EmailStr (v : Value) : option string :=
  match v with
  | VStr s => email_validate s
  | _ => None
  end.

(** A field declared [str]. *)
Definition validate_str (v : Value) : option string :=
  match v with
  | VStr s => Some s
  | VNone => None
  | _ => str_coerce v
  end.

(** A field declared [Optional[str]]. *)
Definition validate_opt_str (v : Value) : option (option string) :=
  match v with
  | VNone => Some None
  | _ => Some <$> validate_str v
  end.

(** [RegisterBody] built from the JSON object of the request: [email]
    and [password] are required, [name] defaults to [None]. *)
Definition parse_RegisterBody (raw : Doc) : Result RegisterBody :=
  match raw !! "email" ≫= validate_EmailStr,
        raw !! "password" ≫= validate_str,
        validate_opt_str (dict_get raw "name") with
  | Some e, Some p, Some n => Ok (mkRegisterBody e p n)
  | _, _, _ => Raise RequestValidationError
  end.

Definition parse_LoginBody (raw : Doc) : Result LoginBody :=
  match raw !! "email" ≫= validate_EmailStr,
        raw !! "password" ≫= validate_str with
  | Some e, Some p => Ok (mkLoginBody e p)
  | _, _ => Raise RequestValidationError
  end.

(** [UserOut(id=.., email=.., name=..)] *)
Definition new_UserOut (i : string) (e n : Value) : Result UserOut :=
  match validate_EmailStr e, validate_opt_str n with
  | Some e', Some n' => Ok (mkUserOut i e' n')
  | _, _ => Raise ValidationError
  end.

(** *** Auth utilities *)

(** [pwd_context = CryptContext(schemes=["bcrypt"], deprecated="auto")]:
    a hash string belongs to the bcrypt scheme when it starts with one
    of the scheme's identifiers. *)
Definition bcrypt_idents : list string :=
  ["$2$"; "$2a$"; "$2x$"; "$2y$"; "$2b$"].

Definition bcrypt_identify (h : string) : bool :=
  existsb (startswith h) bcrypt_idents.

(** [pwd_context.hash(secret)]: a fresh salt, then the handler. *)
Definition pwd_context_hash (secret : string) : M string :=
  salt <- new_salt ;;
  lift (bcrypt_hash salt secret).

(** [pwd_context.verify(secret, hash)]: [None] never verifies; a hash
    that no configured scheme identifies raises UnknownHashError;
    otherwise the identified handler decides. *)
Definition pwd_context_verify (secret : string) (hash : Value)
  : Result bool :=
  match hash with
  | VNone => Ok false
  | VStr h =>
      if bcrypt_identify h then bcrypt_verify secret h
      else Raise UnknownHashError
  | _ => Raise ExpectedStringError
  end.

Definition hash_password (password : string) : M string :=
  pwd_context_hash password.

Definition verify_password (plain : string) (hashed : Value)
  : Result bool :=
  pwd_context_verify plain hashed.

(** The microseconds of [m] minutes. *)
Definition timedelta_minutes (m : Z) : Z := m * 60 * 1000000.

(** The range of [timedelta]: from -999999999 days to 999999999 days
    23:59:59.999999, in microseconds. *)
Definition timedelta_min : Z := -86399999913600000000.
Definition timedelta_max : Z := 86399999999999999999.

Definition in_timedelta_range (us : Z) : bool :=
  (Z.leb timedelta_min us && Z.leb us timedelta_max)%bool.

(** The range of [datetime]: from 0001-01-01 00:00:00 to
    9999-12-31 23:59:59.999999, in microseconds since the epoch. *)
Definition datetime_min : Z := -62135596800000000.
Definition datetime_max : Z := 253402300799999999.

Definition in_datetime_range (us : Z) : bool :=
  (Z.leb datetime_min us && Z.leb us datetime_max)%bool.

(** [timedelta(minutes=m)]: an OverflowError outside the range of
    [timedelta]. *)
Definition timedelta (m : Z) : Result Z :=
  if in_timedelta_range (timedelta_minutes m)
  then Ok (timedelta_minutes m)
  else Raise OverflowError.

(** [dt + td]: an OverflowError when the sum leaves the range of
    [datetime]. *)
Definition datetime_add (dt td : Z) : Result Z :=
  if in_datetime_range (dt + td) then Ok (dt + td) else Raise OverflowError.

(** [timegm(dt.utctimetuple())]: whole seconds since the epoch. *)
Definition timegm (us : Z) : Z := us `div` 1000000.

(** [jwt.encode(claims, key, algorithm="HS256")]: datetimes under the
    time claims become integer seconds, then the claims are signed. *)
Definition intdate (v : Value) : Value :=
  match v with
  | VDatetime us => VInt (timegm us)
  | _ => v
  end.

Definition jwt_encode (claims : Doc) (key : string) : Result string :=
  let claims := foldr (fun k c => alter intdate k c) claims
                      ["exp"; "iat"; "nbf"] in
  jws_sign claims key.

(** [int(v)] as the claim checks of jose use it: a ValueError (a text
    that is no number, a NaN) is turned into a JWTClaimsError by the
    caller; a TypeError and the OverflowError of an infinite float are
    not.  A finite float is truncated towards zero. *)
Definition claim_int (what : string) (v : Value) : Result Z :=
  match v with
  | VInt n => Ok n
  | VBool b => Ok (Z.b2z b)
  | VFloat (Finite m e) _ =>
      Ok (if Z.leb 0 e then m * 2 ^ e else Z.quot m (2 ^ (- e)))
  | VFloat (Infinite _) _ => Raise OverflowError
  | VFloat NaN _ => Raise (JWTClaimsError what)
  | VStr s =>
      match int_of_str s with
      | Some n => Ok n
      | None => Raise (JWTClaimsError what)
      end
  | _ => Raise (TypeError "int() argument must be a string or a number")
  end.

Definition is_str (v : Value) : bool :=
  match v with VStr _ => true | _ => false end.

(** The claim checks of [jwt.decode] with its default options and no
    audience, issuer, subject or access token given.  The clock is
    read once for nbf and once for exp, when the claim is present;
    expiry is [exp < now] on whole seconds. *)
Definition validate_iat (claims : Doc) : M unit :=
  match claims !! "iat" with
  | Some v => lift (claim_int "iat" v) ;;; ret tt
  | None => ret tt
  end.

Definition validate_nbf (claims : Doc) : M unit :=
  match claims !! "nbf" with
  | Some v =>
      nbf <- lift (claim_int "nbf" v) ;;
      now <- datetime_now ;;
      if timegm now <? nbf then raise (JWTClaimsError "nbf") else ret tt
  | None => ret tt
  end.

Definition validate_exp (claims : Doc) : M unit :=
  match claims !! "exp" with
  | Some v =>
      exp <- lift (claim_int "exp" v) ;;
      now <- datetime_now ;;
      if exp <? timegm now then raise ExpiredSignatureError else ret tt
  | None => ret tt
  end.

Definition validate_aud (claims : Doc) : M unit :=
  match claims !! "aud" with
  | Some _ => raise (JWTClaimsError "aud")
  | None => ret tt
  end.

Definition validate_sub (claims : Doc) : M unit :=
  match claims !! "sub" with
  | Some v => if is_str v then ret tt else raise (JWTClaimsError "sub")
  | None => ret tt
  end.

Definition validate_jti (claims : Doc) : M unit :=
  match claims !! "jti" with
  | Some v => if is_str v then ret tt else raise (JWTClaimsError "jti")
  | None => ret tt
  end.

Definition validate_at_hash (claims : Doc) : M unit :=
  match claims !! "at_hash" with
  | Some _ => raise (JWTClaimsError "at_hash")
  | None => ret tt
  end.

Definition validate_claims (claims : Doc) : M unit :=
  validate_iat claims ;;;
  validate_nbf claims ;;;
  validate_exp claims ;;;
  validate_aud claims ;;;
  validate_sub claims ;;;
  validate_jti claims ;;;
  validate_at_hash claims.

(** [jwt.decode(token, key, algorithms=["HS256"])] *)
Definition jwt_decode (token key : string) : M Doc :=
  match jws_verify token key with
  | None => raise (JWTError "invalid token")
  | Some claims => validate_claims claims ;;; ret claims
  end.

(** [create_access_token(data, expires_delta=None)]; a timedelta is
    given in microseconds and is falsy when zero; one that the caller
    passes exists, so it lies within the range of [timedelta].  The
    clock is read first, then [expires_delta or timedelta(minutes=...)]
    is evaluated, then the two are added; the last two steps can raise
    OverflowError. *)
Definition create_access_token (data : Doc) (expires_delta : option Z)
  : M string :=
  let to_encode := data in
  now <- datetime_now ;;
  delta <- lift match expires_delta with
                | Some d => if Z.eqb d 0
                            then timedelta (ACCESS_TOKEN_EXPIRE_MINUTES cfg)
                            else Ok d
                | None => timedelta (ACCESS_TOKEN_EXPIRE_MINUTES cfg)
                end ;;
  expire <- lift (datetime_add now delta) ;;
  let to_encode := <["exp" := VDatetime expire]> to_encode in
  lift (jwt_encode to_encode (SECRET_KEY cfg)).

(** *** Helpers *)

Definition users_col : M unit :=
  fun w =>
    match db w with
    | None => (Raise (HTTPException 500 "Database not available"), w)
    | Some _ => (Ok tt, w)
    end.

Definition serialize_user (doc : Doc) : Result UserOut :=
  new_UserOut (py_str datetime_str (dict_get doc "_id"))
              (dict_get doc "email") (dict_get doc "name").

(** [not authorization or not authorization.lower().startswith("bearer ")] *)
Definition not_bearer (authorization : option string) : bool :=
  match authorization with
  | None => true
  | Some a =>
      (String.eqb a "" || negb (startswith (lower a) "bearer "))%bool
  end.

Definition get_current_user (authorization : option string) : M UserOut :=
  if not_bearer authorization
  then raise (HTTPException 401 "Not authenticated")
  else
    token <- lift (index_1 (split_space_1 (default "" authorization))) ;;
    sub <- try_except_JWTError
             (payload <- jwt_decode token (SECRET_KEY cfg) ;;
              let sub := dict_get payload "sub" in
              if negb (truthy sub)
              then raise (HTTPException 401 "Invalid token")
              else
                users_col ;;;
                u <- col_find_one "_id" VNone ;;
                ret sub)
             (raise (HTTPException 401 "Invalid token")) ;;
    (* Query by email stored in sub for simplicity *)
    users_col ;;;
    user_doc <- col_find_one "email" sub ;;
    if negb (doc_opt_truthy user_doc)
    then raise (HTTPException 401 "User not found")
    else lift (serialize_user (default ∅ user_doc)).

(** The same flow without the lookup by [_id] of line 97. *)
Definition get_current_user_without_id_lookup
    (authorization : option string) : M UserOut :=
  if not_bearer authorization
  then raise (HTTPException 401 "Not authenticated")
  else
    token <- lift (index_1 (split_space_1 (default "" authorization))) ;;
    sub <- try_except_JWTError
             (payload <- jwt_decode token (SECRET_KEY cfg) ;;
              let sub := dict_get payload "sub" in
              if negb (truthy sub)
              then raise (HTTPException 401 "Invalid token")
              else ret sub)
             (raise (HTTPException 401 "Invalid token")) ;;
    users_col ;;;
    user_doc <- col_find_one "email" sub ;;
    if negb (doc_opt_truthy user_doc)
    then raise (HTTPException 401 "User not found")
    else lift (serialize_user (default ∅ user_doc)).

(** *** Auth endpoints *)

Definition register (body : RegisterBody) : M TokenOut :=
  users_col ;;;
  existing <- col_find_one "email" (VStr (reg_email body)) ;;
  if doc_opt_truthy existing
  then raise (HTTPException 409 "Email already registered")
  else
    password_hash <- hash_password (reg_password body) ;;
    created_at <- datetime_now ;;
    updated_at <- datetime_now ;;
    let doc : Doc :=
      {[ "email" := VStr (reg_email body);
         "password_hash" := VStr password_hash;
         "name" := opt_str_value (reg_name body);
         "created_at" := VDatetime created_at;
         "updated_at" := VDatetime updated_at;
         "is_active" := VBool true ]} in
    doc <- col_insert_one doc ;;
    user <- lift (serialize_user doc) ;;
    token <- create_access_token {[ "sub" := VStr (email user) ]} None ;;
    ret (mkTokenOut token "bearer" user).

Definition login (body : LoginBody) : M TokenOut :=
  users_col ;;;
  user_doc <- col_find_one "email" (VStr (login_email body)) ;;
  (* not user_doc or not verify_password(...) *)
  rejected <- (if negb (doc_opt_truthy user_doc) then ret true
               else
                 ok <- lift (verify_password (login_password body)
                               (dict_get_default (default ∅ user_doc)
                                  "password_hash" (VStr ""))) ;;
                 ret (negb ok)) ;;
  if rejected : bool
  then raise (HTTPException 401 "Invalid email or password")
  else
    user <- lift (serialize_user (default ∅ user_doc)) ;;
    token <- create_access_token {[ "sub" := VStr (email user) ]} None ;;
    ret (mkTokenOut token "bearer" user).

Definition me (authorization : option string) : M UserOut :=
  get_current_user authorization.

(** *** The routes, from the parsed JSON body to the handler *)

Definition post_auth_register (raw : Doc) : M TokenOut :=
  body <- lift (parse_RegisterBody raw) ;;
  register body.

Definition post_auth_login (raw : Doc) : M TokenOut :=
  body <- lift (parse_LoginBody raw) ;;
  login body.

Definition get_auth_me (authorization : option string)
  : M (list (string * Value)) :=
  u <- me authorization ;;
  ret (UserOut_json u).

(** *** Vocabulary of the properties *)

(** The world after one more reading of the clock. *)
Definition tick (w : World) : World :=
  mkWorld (db w) (clock w) (S (clock_reads w)) (oids w) (oid_count w)
          (salts w) (salt_count w).

(** The second in which a token issued in world [w] expires, and the
    claims set that [create_access_token] signs for subject [s]. *)
Definition expiry (w : World) : Z :=
  timegm (clock w (clock_reads w)
          + timedelta_minutes (ACCESS_TOKEN_EXPIRE_MINUTES cfg)).

Definition issued_claims (s : string) (w : World) : Doc :=
  <["exp" := VInt (expiry w)]> {[ "sub" := VStr s ]}.

(** Whether Python can represent the configured lifetime as a timedelta
    and the expiry of a token issued in world [w] as a datetime. *)
Definition expiry_representable (w : World) : bool :=
  (in_timedelta_range (timedelta_minutes (ACCESS_TOKEN_EXPIRE_MINUTES cfg))
   && in_datetime_range
        (clock w (clock_reads w)
         + timedelta_minutes (ACCESS_TOKEN_EXPIRE_MINUTES cfg)))%bool.

(** The values on which [int()] raises neither a TypeError nor an
    OverflowError: integers, booleans, strings, and the floats other
    than the infinities. *)
Definition intlike (v : Value) : bool :=
  match v with
  | VInt _ | VBool _ | VStr _ => true
  | VFloat (Finite _ _) _ | VFloat NaN _ => true
  | _ => false
  end.

(** What a check may do to the world: read the clock. *)
Definition later (w w' : World) : Prop :=
  db w' = db w ∧ clock w' = clock w
  ∧ (clock_reads w ≤ clock_reads w')%nat.

(** A check either passes or raises an exception of class JWTError. *)
Definition passes_or_JWTError (w : World) (r : Result unit * World)
  : Prop :=
  later w r.2
  ∧ match r.1 with Ok _ => True | Raise e => is_JWTError e = true end.

(** A header accepted as bearer, and the token it carries. *)
Definition bearer (authorization token : string) : Prop :=
  not_bearer (Some authorization) = false
  ∧ index_1 (split_space_1 authorization) = Ok token.

End Main.

(** ** An executable instance of the packages

    A small stand-in for the third-party packages, with which the
    handlers run on concrete requests.  The digest and the signature
    are transparent here (the hash string carries the secret, the token
    carries the key); the formats and the failure cases follow the real
    packages. *)
Module Sim.

(** Accepts [local@domain] with both parts non-empty; no
    normalisation. *)
Definition email_validate (s : string) : option string :=
  match String.index 0 "@" s with
  | Some (S n) =>
      if Nat.ltb (S (S n)) (String.length s) then Some s else None
  | _ => None
  end.

(** ["$2b$12$"], the 22 characters of the salt, then the digest. *)
Definition bcrypt_hash (salt secret : string) : Result string :=
  Ok ("$2b$12$" ++ salt ++ secret)%string.

Definition bcrypt_verify (secret h : string) : Result bool :=
  Ok (String.eqb (String.substring 29 (String.length h - 29) h) secret).

Fixpoint digits_value (acc : Z) (s : string) : option Z :=
  match s with
  | EmptyString => Some acc
  | String c s' =>
      let n := nat_of_ascii c in
      if (Nat.leb 48 n && Nat.leb n 57)%bool
      then digits_value (10 * acc + Z.of_nat (n - 48)) s'
      else None
  end.

Definition int_of_str (s : string) : option Z :=
  match s with
  | EmptyString => None
  | String "-" s' =>
      match s' with
      | EmptyString => None
      | _ => Z.opp <$> digits_value 0 s'
      end
  | _ => digits_value 0 s
  end.

(** [text up to the first bar, text after it] *)
Fixpoint cut_bar (s : string) : option (string * string) :=
  match s with
  | EmptyString => None
  | String c s' =>
      if Ascii.eqb c "|"%char then Some (EmptyString, s')
      else '(a, b) ← cut_bar s'; Some (String c a, b)
  end.

(** A token is [key|exp|sub]; only claims sets made of a string [sub]
    and an integer [exp] are handled. *)
Definition jws_sign (claims : Doc) (key : string) : Result string :=
  match claims !! "sub", claims !! "exp" with
  | Some (VStr s), Some (VInt e) =>
      if decide (claims = <["exp" := VInt e]> {[ "sub" := VStr s ]})
      then Ok (key ++ "|" ++ pretty e ++ "|" ++ s)%string
      else Raise (TypeError "unsupported claims")
  | _, _ => Raise (TypeError "unsupported claims")
  end.

Definition jws_verify (token key : string) : option Doc :=
  '(k, rest) ← cut_bar token;
  '(e, s) ← cut_bar rest;
  n ← int_of_str e;
  if String.eqb k key
  then Some (<["exp" := VInt n]> {[ "sub" := VStr s ]})
  else None.

#[export] Instance libs : Libs :=
  mkLibs email_validate (fun _ => None) bcrypt_hash bcrypt_verify
         jws_sign jws_verify int_of_str (fun us => pretty us).

(** A world with an empty collection, a clock that advances by 1500
    microseconds per reading from 1_700_000_000 s on, and fixed
    generators. *)
Definition clock0 (n : nat) : Z := 1700000000000000 + 1500 * Z.of_nat n.
Definition oids0 (n : nat) : string :=
  String (ascii_of_nat (97 + n)) "5f0c0ffee00000000000000".
Definition salts0 (n : nat) : string := "abcdefghijklmnopqrstuv".

Definition world0 : World :=
  mkWorld (Some []) clock0 0 oids0 0 salts0 0.

(** The record that registering a@x.com with password pw1 writes in
    [world0]. *)
Definition user_a : Doc :=
  {[ "_id" := VObjectId "a5f0c0ffee00000000000000";
     "email" := VStr "a@x.com";
     "password_hash" := VStr "$2b$12$abcdefghijklmnopqrstuvpw1";
     "name" := VNone;
     "created_at" := VDatetime 1700000000000000;
     "updated_at" := VDatetime 1700000000001000;
     "is_active" := VBool true ]}.

Definition body_a : RegisterBody := mkRegisterBody "a@x.com" "pw1" None.

(** The token issued for a@x.com in [world0] (one hour of lifetime). *)
Definition token_a : string := "dev-secret-change-me|1700003600|a@x.com".

(** A user record without [password_hash]. *)
Definition user_c : Doc :=
  {[ "_id" := VObjectId "c5f0c0ffee00000000000000";
     "email" := VStr "c@x.com";
     "name" := VStr "Carol" ]}.

(** A later world: both records stored, the clock half a second
    into second 1_700_000_000. *)
Definition world_ac : World :=
  mkWorld (Some [user_a; user_c])
          (fun n => 1700000000500000 + 1500 * Z.of_nat n) 0
          oids0 3 salts0 1.

End Sim.


(** * The rest of the code *)

(** ** The /test endpoint (main.py, [test_database]) *)

(** The database handle as [test_database] uses it: its [name]
    attribute ([None] when [hasattr(db, 'name')] is false) and what
    [list_collection_names()] does, the names or an exception carried
    as its message [str(e)]. *)
Record Database := mkDatabase {
  db_name : option string;
  list_collection_names : string + list string
}.

(** The [response] dict, one field per key. *)
Record TestResponse := mkTestResponse {
  backend : string;
  database : string;
  database_url : option string;
  database_name : option string;
  connection_status : string;
  collections : list string
}.

Definition set_database (v : string) (r : TestResponse) : TestResponse :=
  mkTestResponse (backend r) v (database_url r) (database_name r)
                 (connection_status r) (collections r).
Definition set_database_url (v : string) (r : TestResponse) : TestResponse :=
  mkTestResponse (backend r) (database r) (Some v) (database_name r)
                 (connection_status r) (collections r).
Definition set_database_name (v : string) (r : TestResponse) : TestResponse :=
  mkTestResponse (backend r) (database r) (database_url r) (Some v)
                 (connection_status r) (collections r).
Definition set_connection_status (v : string) (r : TestResponse)
  : TestResponse :=
  mkTestResponse (backend r) (database r) (database_url r) (database_name r)
                 v (collections r).
Definition set_collections (v : list string) (r : TestResponse)
  : TestResponse :=
  mkTestResponse (backend r) (database r) (database_url r) (database_name r)
                 (connection_status r) v.

(** A [string] holds the UTF-8 bytes of a Python [str]: a character
    is one byte that is not of the form 10xxxxxx, followed by the
    bytes of that form that continue it. *)
Definition utf8_continuation (c : ascii) : bool :=
  let n := nat_of_ascii c in (Nat.leb 128 n && Nat.ltb n 192)%bool.

(** [len(s)]: the number of characters. *)
Fixpoint str_len (s : string) : nat :=
  match s with
  | EmptyString => 0
  | String c s' =>
      ((if utf8_continuation c then 0 else 1) + str_len s')%nat
  end.

(** [s[:n]]: the first [n] characters of [s], all of [s] when it has
    fewer. *)
Fixpoint str_slice_to (n : nat) (s : string) : string :=
  match s with
  | EmptyString => EmptyString
  | String c s' =>
      if utf8_continuation c then String c (str_slice_to n s')
      else match n with
           | O => EmptyString
           | S n' => String c (str_slice_to n' s')
           end
  end.

(** [os.getenv(k)] tested as a condition: unset and empty are falsy. *)
Definition env_truthy (getenv : string -> option string) (k : string)
  : bool :=
  match getenv k with
  | Some v => negb (String.eqb v "")
  | None => false
  end.

(** The outer [try] block: the response as mutated so far, and the
    message of an exception that escaped the block, if any.  Only
    [list_collection_names] raises, under the inner handler, so nothing
    escapes. *)
Definition test_database_try (dbh : option Database) (response : TestResponse)
  : TestResponse * option string :=
  match dbh with
  | Some d =>
      let response := set_database "✅ Available" response in
      let response := set_database_url "✅ Configured" response in
      let response :=
        set_database_name (default "✅ Connected" (db_name d)) response in
      let response := set_connection_status "Connected" response in
      match list_collection_names d with
      | inr names =>
          let response := set_collections (take 10 names) response in
          (set_database "✅ Connected & Working" response, None)
      | inl e =>
          (set_database
             ("⚠️  Connected but Error: " ++ str_slice_to 50 e)%string
             response, None)
      end
  | None =>
      (set_database "⚠️  Available but not initialized" response, None)
  end.

Definition test_database (dbh : option Database)
    (getenv : string -> option string) : TestResponse :=
  let response :=
    mkTestResponse "✅ Running" "❌ Not Available" None None
                   "Not Connected" [] in
  let response :=
    match test_database_try dbh response with
    | (response, None) => response
    | (response, Some e) =>
        set_database ("❌ Error: " ++ str_slice_to 50 e)%string response
    end in
  let response :=
    set_database_url
      (if env_truthy getenv "DATABASE_URL" then "✅ Set" else "❌ Not Set")
      response in
  let response :=
    set_database_name
      (if env_truthy getenv "DATABASE_NAME" then "✅ Set" else "❌ Not Set")
      response in
  response.

(** ** The AuthUser schema (schemas.py) *)

Record AuthUser := mkAuthUser {
  au_email : string;                (* email: EmailStr *)
  au_password_hash : string;        (* password_hash: str *)
  au_name : option string;          (* name: Optional[str] = None *)
  au_created_at : option Z;         (* created_at: Optional[datetime] = None *)
  au_updated_at : option Z;         (* updated_at: Optional[datetime] = None *)
  au_is_active : bool               (* is_active: bool = True *)
}.

Section Schemas.
Context {L : Libs}.

(** What pydantic makes of a value that is not of the declared type
    (a timestamp or a string for a datetime, 0/1 or a word for a
    bool). *)
Variable datetime_coerce : Value -> option Z.
Variable bool_coerce : Value -> option bool.

(** A field declared [Optional[datetime]]. *)
Definition validate_opt_datetime (v : Value) : option (option Z) :=
  match v with
  | VNone => Some None
  | VDatetime us => Some (Some us)
  | _ => Some <$> datetime_coerce v
  end.

(** A field declared [bool]. *)
Definition validate_bool (v : Value) : option bool :=
  match v with
  | VBool b => Some b
  | VNone => None
  | _ => bool_coerce v
  end.

(** The [AuthUser] model built from a document: [email] and
    [password_hash] are required, the others take their defaults when
    the key is absent; keys the model does not declare are ignored. *)
Definition validate_AuthUser (doc : Doc) : option AuthUser :=
  e ← doc !! "email" ≫= validate_EmailStr;
  h ← doc !! "password_hash" ≫= validate_str;
  n ← validate_opt_str (dict_get doc "name");
  c ← validate_opt_datetime (dict_get doc "created_at");
  u ← validate_opt_datetime (dict_get doc "updated_at");
  a ← match doc !! "is_active" with
      | Some v => validate_bool v
      | None => Some true
      end;
  Some (mkAuthUser e h n c u a).

End Schemas.

(** ** Vocabulary of the further properties *)

(** The values of the [email] field over a collection, in order. *)
Definition emails (col : list Doc) : list Value :=
  omap (λ d : Doc, d !! "email") col.

(** No two records carry the same email. *)
Definition unique_emails (odb : option (list Doc)) : Prop :=
  match odb with
  | Some col => NoDup (emails col)
  | None => True
  end.

(** Two documents with the same public fields. *)
Definition public_eq (d d' : Doc) : Prop :=
  d !! "_id" = d' !! "_id"
  ∧ d !! "email" = d' !! "email"
  ∧ d !! "name" = d' !! "name".

(** The document of a new user, before and after the driver has given
    it an [_id]. *)
Definition new_user_doc (body : RegisterBody) (h : string) (t1 t2 : Z)
  : Doc :=
  {[ "email" := VStr (reg_email body);
     "password_hash" := VStr h;
     "name" := opt_str_value (reg_name body);
     "created_at" := VDatetime t1;
     "updated_at" := VDatetime t2;
     "is_active" := VBool true ]}.

(** The world of a register request once the salt is drawn, and once
    the two timestamps are read and the ObjectId is generated. *)
Definition salted (w : World) : World :=
  mkWorld (db w) (clock w) (clock_reads w) (oids w) (oid_count w)
          (salts w) (S (salt_count w)).

Definition stamped (w : World) : World :=
  mkWorld (db w) (clock w) (S (S (clock_reads w))) (oids w)
          (S (oid_count w)) (salts w) (S (salt_count w)).

(** The world with another collection behind the same handle. *)
Definition with_col (w : World) (col : list Doc) : World :=
  set_db w (Some col).

(** * Properties *)

(** ** The store *)

Lemma matches_str_lookup (field e : string) (d : Doc) :
  matches field (VStr e) d = true ↔ d !! field = Some (VStr e).
Proof.
  unfold matches. destruct (d !! field) as [x|] eqn:Hx.
  - rewrite bool_decide_eq_true. split; congruence.
  - rewrite bool_decide_eq_true. split; discriminate.
Qed.

Lemma find_one_Some (field : string) (v : Value) (col : list Doc) (d : Doc) :
  find_one field v col = Some d → d ∈ col ∧ matches field v d = true.
Proof.
  unfold find_one. intros H. apply find_some in H as [Hin Hm].
  split; [by apply list_elem_of_In | done].
Qed.

Lemma find_one_None (field : string) (v : Value) (col : list Doc) (d : Doc) :
  find_one field v col = None → d ∈ col → matches field v d = false.
Proof.
  unfold find_one. intros H Hin. apply (find_none _ _ H).
  by apply list_elem_of_In.
Qed.

Lemma find_one_is_Some (field : string) (v : Value) (col : list Doc) (d : Doc) :
  d ∈ col → matches field v d = true → is_Some (find_one field v col).
Proof.
  intros Hin Hm. destruct (find_one field v col) eqn:Hf; [by eexists|].
  rewrite (find_one_None _ _ _ _ Hf Hin) in Hm. discriminate.
Qed.

(** A document found by a string-valued filter holds that field, so it
    is a non-empty dict and is truthy. *)
Lemma find_one_str_truthy (field e : string) (col : list Doc) (d : Doc) :
  find_one field (VStr e) col = Some d → dict_truthy d = true.
Proof.
  intros [_ Hm]%find_one_Some. apply matches_str_lookup in Hm.
  unfold dict_truthy. rewrite bool_decide_eq_false_2; [done|].
  intros ->. by rewrite lookup_empty in Hm.
Qed.

(** ** Stepping through the monad *)

Lemma bind_Ok {A B} (m : M A) (k : A → M B) (w w' : World) (a : A) :
  m w = (Ok a, w') → bind m k w = k a w'.
Proof. unfold bind. by intros ->. Qed.

Lemma bind_Raise {A B} (m : M A) (k : A → M B) (w w' : World) e :
  m w = (Raise e, w') → bind m k w = (Raise e, w').
Proof. unfold bind. by intros ->. Qed.

(** A computation that returns did so after each of its two parts. *)
Lemma bind_Ok_inv {A B} (m : M A) (k : A → M B) (w w' : World) (b : B) :
  bind m k w = (Ok b, w') →
  ∃ a w1, m w = (Ok a, w1) ∧ k a w1 = (Ok b, w').
Proof.
  unfold bind. destruct (m w) as [[a|e] w1]; [eauto | discriminate].
Qed.

Lemma lift_Ok_inv {A} (r : Result A) (w w' : World) (a : A) :
  lift r w = (Ok a, w') → r = Ok a ∧ w' = w.
Proof. unfold lift. by intros [= -> ->]. Qed.

Lemma col_find_one_Some (field : string) (v : Value) (w : World) col :
  db w = Some col →
  col_find_one field v w = (Ok (find_one field v col), w).
Proof. unfold col_find_one. by intros ->. Qed.

Lemma find_one_truthy (field : string) (v : Value) (col : list Doc) (d : Doc) :
  v ≠ VNone → find_one field v col = Some d → dict_truthy d = true.
Proof.
  intros Hv [_ Hm]%find_one_Some. unfold matches in Hm.
  unfold dict_truthy. rewrite bool_decide_eq_false_2; [done|].
  intros ->. rewrite lookup_empty in Hm.
  by apply bool_decide_eq_true in Hm.
Qed.

Section Properties.
Context {L : Libs} (cfg : Config).

Lemma users_col_Some (w : World) (col : list Doc) :
  db w = Some col → users_col w = (Ok tt, w).
Proof. unfold users_col. by intros ->. Qed.

Lemma users_col_None (w : World) :
  db w = None →
  users_col w = (Raise (HTTPException 500 "Database not available"), w).
Proof. unfold users_col. by intros ->. Qed.

(** ** Register *)

(** C1. When the collection already holds a user record with the
    email of the request, [register] raises HTTPException 409
    "Email already registered" and leaves the world as it was: nothing
    is inserted, no salt, clock reading or ObjectId is consumed. *)
Theorem register_existing_email_conflict
    (body : RegisterBody) (w : World) (col : list Doc) (d : Doc) :
  db w = Some col →
  d ∈ col →
  d !! "email" = Some (VStr (reg_email body)) →
  register cfg body w
    = (Raise (HTTPException 409 "Email already registered"), w)
  ∧ http_status (register cfg body w).1 = 409
  ∧ db (register cfg body w).2 = Some col.
Proof.
  intros Hdb Hin Hemail.
  assert (register cfg body w
          = (Raise (HTTPException 409 "Email already registered"), w))
    as Heq.
  { destruct (find_one_is_Some "email" (VStr (reg_email body)) col d)
      as [d' Hd']; [done | by apply matches_str_lookup |].
    unfold register.
    rewrite (bind_Ok _ _ _ _ _ (users_col_Some _ _ Hdb)).
    rewrite (bind_Ok _ _ _ _ _ (col_find_one_Some _ _ _ _ Hdb)).
    rewrite Hd'. simpl.
    by rewrite (find_one_str_truthy _ _ _ _ Hd'). }
  rewrite Heq. by repeat split.
Qed.

(** ** Login *)

(** A hash string that does not start with a bcrypt identifier is not
    answered with [False]: passlib raises UnknownHashError, and
    [verify_password] lets it through. *)
Lemma verify_password_unidentified (plain h : string) :
  bcrypt_identify h = false →
  verify_password plain (VStr h) = Raise UnknownHashError.
Proof. unfold verify_password, pwd_context_verify. by intros ->. Qed.

Lemma verify_password_empty_hash (plain : string) :
  verify_password plain (VStr "") = Raise UnknownHashError.
Proof. by apply verify_password_unidentified. Qed.

(** The outcome of [login] once the user document is found, in terms
    of what [verify_password] answers. *)
Lemma login_found (body : LoginBody) (w : World) col d :
  db w = Some col →
  find_one "email" (VStr (login_email body)) col = Some d →
  login cfg body w =
    match verify_password (login_password body)
            (dict_get_default d "password_hash" (VStr "")) with
    | Raise e => (Raise e, w)
    | Ok false => (Raise (HTTPException 401 "Invalid email or password"), w)
    | Ok true =>
        (user <- lift (serialize_user d) ;;
         token <- create_access_token cfg {[ "sub" := VStr (email user) ]}
                    None ;;
         ret (mkTokenOut token "bearer" user)) w
    end.
Proof.
  intros Hdb Hd. unfold login.
  rewrite (bind_Ok _ _ _ _ _ (users_col_Some _ _ Hdb)).
  rewrite (bind_Ok _ _ _ _ _ (col_find_one_Some _ _ _ _ Hdb)).
  rewrite Hd. simpl. rewrite (find_one_str_truthy _ _ _ _ Hd). simpl.
  unfold bind at 1. unfold bind at 1. unfold lift at 1.
  by destruct (verify_password (login_password body)
                 (dict_get_default d "password_hash" (VStr ""))) as [[]|].
Qed.

Lemma login_not_found (body : LoginBody) (w : World) col :
  db w = Some col →
  find_one "email" (VStr (login_email body)) col = None →
  login cfg body w
    = (Raise (HTTPException 401 "Invalid email or password"), w).
Proof.
  intros Hdb Hd. unfold login.
  rewrite (bind_Ok _ _ _ _ _ (users_col_Some _ _ Hdb)).
  rewrite (bind_Ok _ _ _ _ _ (col_find_one_Some _ _ _ _ Hdb)).
  by rewrite Hd.
Qed.

(** Where the stored hash is one that [verify_password] can check, the
    two failures of [login] cannot be told apart: a login whose email
    matches no user and a login whose email matches a user but whose
    password does not verify end in the same exception, HTTPException
    401 "Invalid email or password", and leave the same world behind.
    The hypothesis on [verify_password] is needed: see
    [login_unidentified_hash_unhandled] below. *)
Lemma login_failure_indistinguishable
    (b1 b2 : LoginBody) (w : World) (col : list Doc) (d : Doc) :
  db w = Some col →
  find_one "email" (VStr (login_email b1)) col = None →
  find_one "email" (VStr (login_email b2)) col = Some d →
  verify_password (login_password b2)
    (dict_get_default d "password_hash" (VStr "")) = Ok false →
  login cfg b1 w = login cfg b2 w
  ∧ login cfg b1 w
    = (Raise (HTTPException 401 "Invalid email or password"), w)
  ∧ http_status (login cfg b1 w).1 = 401.
Proof.
  intros Hdb H1 H2 Hv.
  rewrite (login_not_found _ _ _ Hdb H1).
  rewrite (login_found _ _ _ _ Hdb H2), Hv.
  by repeat split.
Qed.

(** C6 fails on the code.  When the user document found by [login]
    has no [password_hash], or one that does not start with a bcrypt
    identifier (the empty string, any other text), the call of
    [verify_password] raises UnknownHashError; [login] does not catch
    it, so the request ends with status 500 and not with 401. *)
Theorem login_unidentified_hash_unhandled
    (body : LoginBody) (w : World) (col : list Doc) (d : Doc) :
  db w = Some col →
  find_one "email" (VStr (login_email body)) col = Some d →
  (d !! "password_hash" = None
   ∨ ∃ h, d !! "password_hash" = Some (VStr h)
          ∧ bcrypt_identify h = false) →
  verify_password (login_password body)
    (dict_get_default d "password_hash" (VStr "")) = Raise UnknownHashError
  ∧ login cfg body w = (Raise UnknownHashError, w)
  ∧ http_status (login cfg body w).1 = 500.
Proof.
  intros Hdb Hd Hh.
  assert (verify_password (login_password body)
            (dict_get_default d "password_hash" (VStr ""))
          = Raise UnknownHashError) as Hv.
  { unfold dict_get_default.
    destruct Hh as [-> | (h & -> & Hid)].
    - apply verify_password_empty_hash.
    - by apply verify_password_unidentified. }
  rewrite (login_found _ _ _ _ Hdb Hd), Hv. by repeat split.
Qed.

(** ** The identity resolver *)

(** C10. The lookup by [_id] of line 97 has no influence on what
    [get_current_user] returns or raises, nor on the world it leaves:
    for every Authorization header and every world the function
    agrees with the same flow without that lookup. *)
Theorem get_current_user_id_lookup_irrelevant
    (authorization : option string) (w : World) :
  get_current_user cfg authorization w
  = get_current_user_without_id_lookup cfg authorization w.
Proof.
  unfold get_current_user, get_current_user_without_id_lookup.
  destruct (not_bearer authorization); [done|].
  unfold bind, try_except_JWTError, lift.
  destruct (index_1 _) as [token|e]; [|done].
  destruct (jwt_decode token (SECRET_KEY cfg) w) as [[payload|e] w1];
    [|done].
  destruct (negb (truthy (dict_get payload "sub"))); [done|].
  unfold users_col, col_find_one, ret.
  destruct (db w1) eqn:Hdb; cbn; rewrite ?Hdb; cbn; by rewrite ?Hdb.
Qed.

(** ** The token codec *)

Lemma datetime_now_eq (w : World) :
  datetime_now w = (Ok (clock w (clock_reads w)), tick w).
Proof. done. Qed.

Lemma jwt_encode_issued (s : string) (t : Z) (key : string) :
  jwt_encode (<["exp" := VDatetime t]> {[ "sub" := VStr s ]}) key
  = jws_sign (<["exp" := VInt (timegm t)]> {[ "sub" := VStr s ]}) key.
Proof.
  unfold jwt_encode. by f_equal.
Qed.

(** With the default lifetime [create_access_token] reads the clock
    once and either signs [issued_claims], or raises OverflowError
    when the lifetime or the expiry is out of Python's range. *)
Lemma create_access_token_eq (s : string) (w : World) :
  create_access_token cfg {[ "sub" := VStr s ]} None w
  = (if expiry_representable cfg w
     then jws_sign (issued_claims cfg s w) (SECRET_KEY cfg)
     else Raise OverflowError, tick w).
Proof.
  unfold create_access_token, expiry_representable.
  rewrite (bind_Ok _ _ _ _ _ (datetime_now_eq w)).
  unfold timedelta, datetime_add, bind at 1, lift at 1.
  destruct (in_timedelta_range _); [|done].
  unfold bind at 1, lift at 1. simpl.
  destruct (in_datetime_range _); [|done].
  unfold lift. by rewrite jwt_encode_issued.
Qed.

(** Whatever it is given, [create_access_token] reads the clock once
    and does nothing else to the world. *)
Lemma create_access_token_world
    (data : Doc) (delta : option Z) (w : World) :
  (create_access_token cfg data delta w).2 = tick w.
Proof.
  unfold create_access_token.
  rewrite (bind_Ok _ _ _ _ _ (datetime_now_eq w)).
  unfold bind, lift.
  destruct (match delta with Some _ => _ | None => _ end) as [d|]; [|done].
  by destruct (datetime_add _ d).
Qed.

(** The claim checks on a claims set made of [sub] and [exp] alone:
    one reading of the clock, and expiry cfg when [exp] is a second
    before the one read. *)
Lemma validate_claims_sub_exp (s : string) (e : Z) (w : World) :
  validate_claims (<["exp" := VInt e]> {[ "sub" := VStr s ]}) w
  = (if e <? timegm (clock w (clock_reads w))
     then Raise ExpiredSignatureError else Ok tt, tick w).
Proof.
  unfold validate_claims, validate_iat, validate_nbf, validate_exp,
    validate_aud, validate_sub, validate_jti, validate_at_hash.
  set (claims := <["exp" := VInt e]> {[ "sub" := VStr s ]} : Doc).
  assert (claims !! "iat" = None) as -> by done.
  assert (claims !! "nbf" = None) as -> by done.
  assert (claims !! "exp" = Some (VInt e)) as -> by done.
  assert (claims !! "aud" = None) as -> by done.
  assert (claims !! "sub" = Some (VStr s)) as -> by done.
  assert (claims !! "jti" = None) as -> by done.
  assert (claims !! "at_hash" = None) as -> by done.
  unfold bind, ret, lift, raise. simpl.
  by destruct (e <? _).
Qed.

(** Verification in the second of expiry or before it succeeds. *)
Lemma immediate_not_expired (w : World) :
  0 ≤ ACCESS_TOKEN_EXPIRE_MINUTES cfg →
  clock w (S (clock_reads w)) = clock w (clock_reads w) →
  timegm (clock w (S (clock_reads w))) ≤ expiry cfg w.
Proof.
  intros Httl ->. unfold expiry, timegm, timedelta_minutes.
  apply Z.div_le_mono; lia.
Qed.

(** C3, as amended.  For every subject [s]: when the configured
    lifetime and the expiry [now + lifetime] are within the range of
    Python's timedelta and datetime, signing and verifying round-trip
    on the signed claims set (the contract of the HS256 signature),
    and the clock reading taken by the decoder is not past the second
    of expiry, then [create_access_token] issues a token for the
    claims [{"sub": s}], and decoding it with the same key yields a
    payload whose [sub] is [s].  The condition on the decoder's clock
    holds for an immediate verification as soon as the configured
    lifetime is not negative ([immediate_not_expired]). *)
Theorem issue_then_verify_same_sub (s : string) (w : World) :
  expiry_representable cfg w = true →
  (∃ token, jws_sign (issued_claims cfg s w) (SECRET_KEY cfg) = Ok token
            ∧ jws_verify token (SECRET_KEY cfg)
              = Some (issued_claims cfg s w)) →
  timegm (clock w (S (clock_reads w))) ≤ expiry cfg w →
  ∃ token w1 payload w2,
    create_access_token cfg {[ "sub" := VStr s ]} None w = (Ok token, w1)
    ∧ jwt_decode token (SECRET_KEY cfg) w1 = (Ok payload, w2)
    ∧ payload !! "sub" = Some (VStr s).
Proof.
  intros Hrange (token & Hsign & Hverify) Hnow.
  exists token, (tick w), (issued_claims cfg s w), (tick (tick w)).
  split; [by rewrite create_access_token_eq, Hrange, Hsign|].
  split; [|by unfold issued_claims;
            rewrite lookup_insert_ne, lookup_singleton_eq].
  unfold jwt_decode. rewrite Hverify.
  unfold issued_claims at 1, bind. rewrite validate_claims_sub_exp.
  simpl. by rewrite (proj2 (Z.ltb_ge _ _) Hnow).
Qed.

(** ** Rejection of tokens *)

Lemma claim_int_intlike (what : string) (v : Value) :
  intlike v = true →
  (∃ n, claim_int what v = Ok n)
  ∨ claim_int what v = Raise (JWTClaimsError what).
Proof.
  destruct v as [| | |[| |] ?| | |]; try discriminate; simpl; intros _;
    eauto.
  destruct (int_of_str s); eauto.
Qed.

Lemma later_refl (w : World) : later w w.
Proof. by repeat split. Qed.

Lemma later_tick (w w' : World) : later w w' → later w (tick w').
Proof. intros (? & ? & ?). repeat split; simpl; auto with lia. Qed.

Lemma later_trans (w1 w2 w3 : World) :
  later w1 w2 → later w2 w3 → later w1 w3.
Proof.
  intros (? & ? & ?) (? & ? & ?). repeat split; [congruence.. | lia].
Qed.

Lemma validate_iat_intlike (claims : Doc) (w : World) :
  (∀ v, claims !! "iat" = Some v → intlike v = true) →
  passes_or_JWTError w (validate_iat claims w).
Proof.
  intros Hv. unfold validate_iat.
  destruct (claims !! "iat") as [v|]; [|split; [apply later_refl|done]].
  unfold bind, lift, ret.
  destruct (claim_int_intlike "iat" v (Hv v eq_refl)) as [[n ->] | ->];
    (split; [apply later_refl|done]).
Qed.

Lemma validate_nbf_intlike (claims : Doc) (w : World) :
  (∀ v, claims !! "nbf" = Some v → intlike v = true) →
  passes_or_JWTError w (validate_nbf claims w).
Proof.
  intros Hv. unfold validate_nbf.
  destruct (claims !! "nbf") as [v|]; [|split; [apply later_refl|done]].
  unfold bind, lift.
  destruct (claim_int_intlike "nbf" v (Hv v eq_refl)) as [[n ->] | ->];
    [|split; [apply later_refl|done]].
  rewrite datetime_now_eq.
  destruct (_ <? n); (split; [apply later_tick, later_refl|done]).
Qed.

Lemma validate_exp_expired
    (claims : Doc) (v : Value) (e : Z) (w : World) :
  claims !! "exp" = Some v →
  claim_int "exp" v = Ok e →
  e < timegm (clock w (clock_reads w)) →
  validate_exp claims w = (Raise ExpiredSignatureError, tick w).
Proof.
  intros Hexp Hint Hlt. unfold validate_exp. rewrite Hexp.
  unfold bind, lift. rewrite Hint, datetime_now_eq.
  by rewrite (proj2 (Z.ltb_lt _ _) Hlt).
Qed.

(** A payload whose [exp], read as an integer, lies before the second
    of every clock reading still to come does not pass the claim
    checks. *)
Lemma validate_claims_expired
    (claims : Doc) (v : Value) (e : Z) (w : World) :
  (∀ v, claims !! "iat" = Some v → intlike v = true) →
  (∀ v, claims !! "nbf" = Some v → intlike v = true) →
  claims !! "exp" = Some v →
  claim_int "exp" v = Ok e →
  (∀ m, (clock_reads w ≤ m)%nat → e < timegm (clock w m)) →
  ∃ err w', validate_claims claims w = (Raise err, w')
            ∧ is_JWTError err = true ∧ later w w'.
Proof.
  intros Hiat Hnbf Hexp Hint Hpast. unfold validate_claims.
  destruct (validate_iat_intlike claims w Hiat) as [Hl1 Hr1].
  unfold bind at 1.
  destruct (validate_iat claims w) as [[[]|e1] w1]; simpl in *;
    [|by eauto].
  assert (∀ v, claims !! "nbf" = Some v → intlike v = true) as Hnbf'
    by done.
  destruct (validate_nbf_intlike claims w1 Hnbf') as [Hl2 Hr2].
  unfold bind at 1.
  destruct (validate_nbf claims w1) as [[[]|e2] w2]; simpl in *;
    [|exists e2, w2; split; [done|split; [done|by eapply later_trans]]].
  pose proof (later_trans _ _ _ Hl1 Hl2) as (Hdb & Hclock & Hreads).
  unfold bind at 1.
  rewrite (validate_exp_expired claims v e w2 Hexp Hint).
  - exists ExpiredSignatureError, (tick w2).
    repeat split; simpl; auto with lia.
  - rewrite Hclock. by apply Hpast.
Qed.

Lemma prefix_empty (s : string) : String.prefix "" s = true.
Proof. by destruct s. Qed.

Lemma bearer_intro (token : string) : bearer ("Bearer " ++ token) token.
Proof.
  split; [|done]. unfold not_bearer, startswith. simpl.
  by rewrite prefix_empty.
Qed.

(** C4, as amended.  For a header of the bearer scheme,
    [get_current_user] raises HTTPException 401 "Invalid token"
    without touching the collection when the token is malformed or its
    signature does not verify, and when the payload carries an [exp]
    that [int] reads as an integer (an integer, a boolean, a finite
    float, a numeric string) lying before the whole second of the
    clock readings taken from then on, the claims [iat] and [nbf],
    where present, being integers, booleans, strings or floats other
    than the infinities.  Expiry is [exp < now] on whole seconds: a
    token is still accepted during the second that begins at [exp]
    ([Sim.token_a] in [token_accepted_in_second_of_expiry]).  On an
    [iat] or [nbf] that is [None] or an infinite float, [int] raises a
    TypeError or an OverflowError that nothing catches
    ([get_current_user_infinite_iat]). *)
Theorem get_current_user_rejects_invalid_token
    (authorization token : string) (w : World) :
  bearer authorization token →
  (jws_verify token (SECRET_KEY cfg) = None
   ∨ ∃ claims v e,
       jws_verify token (SECRET_KEY cfg) = Some claims
       ∧ (∀ v, claims !! "iat" = Some v → intlike v = true)
       ∧ (∀ v, claims !! "nbf" = Some v → intlike v = true)
       ∧ claims !! "exp" = Some v
       ∧ claim_int "exp" v = Ok e
       ∧ (∀ m, (clock_reads w ≤ m)%nat → e < timegm (clock w m))) →
  ∃ w', get_current_user cfg (Some authorization) w
        = (Raise (HTTPException 401 "Invalid token"), w')
        ∧ db w' = db w.
Proof.
  intros [Hb Htok] Hbad. unfold get_current_user. rewrite Hb.
  simpl. rewrite Htok.
  unfold bind at 1, lift at 1. unfold bind at 1.
  unfold try_except_JWTError, jwt_decode.
  destruct Hbad
    as [-> | (claims & v & e & -> & Hiat & Hnbf & Hexp & Hint & Hpast)].
  - unfold bind at 1, raise at 1. simpl. by eexists.
  - unfold bind at 1. unfold bind at 1.
    destruct (validate_claims_expired claims v e w Hiat Hnbf Hexp Hint
                Hpast) as (err & w' & -> & Herr & Hdb & _).
    rewrite Herr. unfold raise. by eexists.
Qed.

(** Why the time claims are restricted above: on an [iat] that is an
    infinite float (the JSON reader makes one of [Infinity] and of
    [1e400]) [int] raises OverflowError; neither the claim checks nor
    [get_current_user] catch it, whatever the other claims are, and
    the request ends with status 500. *)
Lemma get_current_user_infinite_iat
    (authorization token : string) (w : World) (claims : Doc)
    (negative : bool) (repr : string) :
  bearer authorization token →
  jws_verify token (SECRET_KEY cfg) = Some claims →
  claims !! "iat" = Some (VFloat (Infinite negative) repr) →
  get_current_user cfg (Some authorization) w = (Raise OverflowError, w)
  ∧ http_status (get_current_user cfg (Some authorization) w).1 = 500.
Proof.
  intros [Hb Htok] Hverify Hiat.
  assert (get_current_user cfg (Some authorization) w
          = (Raise OverflowError, w)) as Heq.
  { unfold get_current_user. rewrite Hb. simpl. rewrite Htok.
    unfold bind at 1, lift at 1. unfold bind at 1.
    unfold try_except_JWTError, jwt_decode. rewrite Hverify.
    unfold bind at 1. unfold bind at 1.
    unfold validate_claims, validate_iat. rewrite Hiat.
    by unfold bind, lift. }
  by rewrite Heq.
Qed.

(** ** Input validation of register *)

(** C7, as amended.  A register request whose [email] is missing, is
    not a string or is not a well-formed address fails at input
    validation (status 422) and leaves the world as it was: no user is
    created and no token is issued.  Nothing of the kind holds for the
    password: the body model declares it a plain [str], and the empty
    string is accepted ([parse_RegisterBody_empty_password]). *)
Theorem post_auth_register_rejects_malformed_email
    (raw : Doc) (w : World) :
  raw !! "email" ≫= validate_EmailStr = None →
  post_auth_register cfg raw w = (Raise RequestValidationError, w)
  ∧ http_status (post_auth_register cfg raw w).1 = 422
  ∧ db (post_auth_register cfg raw w).2 = db w.
Proof.
  intros Hemail.
  assert (post_auth_register cfg raw w = (Raise RequestValidationError, w))
    as Heq.
  { unfold post_auth_register, bind, lift, parse_RegisterBody.
    by rewrite Hemail. }
  rewrite Heq. by repeat split.
Qed.

(** The body model accepts an empty password. *)
Lemma parse_RegisterBody_empty_password
    (raw : Doc) (e : string) (n : option string) :
  raw !! "email" ≫= validate_EmailStr = Some e →
  raw !! "password" = Some (VStr "") →
  validate_opt_str (dict_get raw "name") = Some n →
  parse_RegisterBody raw = Ok (mkRegisterBody e "" n).
Proof.
  intros He Hp Hn. unfold parse_RegisterBody. by rewrite He, Hp, Hn.
Qed.

(** ** The record written by register *)

(** What a successful [register] has written: one record appended to
    the collection, carrying the email of the request, [is_active]
    true, and as [created_at] and [updated_at] the first and the
    second clock reading of the request (at the millisecond precision
    of the store). *)
Lemma register_inserted_record
    (body : RegisterBody) (w w' : World) (r : TokenOut) :
  register cfg body w = (Ok r, w') →
  ∃ col stored,
    db w = Some col
    ∧ db w' = Some (col ++ [stored])%list
    ∧ stored !! "email" = Some (VStr (reg_email body))
    ∧ stored !! "is_active" = Some (VBool true)
    ∧ stored !! "created_at"
      = Some (bson_value (VDatetime (clock w (clock_reads w))))
    ∧ stored !! "updated_at"
      = Some (bson_value (VDatetime (clock w (S (clock_reads w))))).
Proof.
  intros H. unfold register in H.
  apply bind_Ok_inv in H as ([] & w1 & Hcol & H).
  unfold users_col in Hcol.
  destruct (db w) as [col|] eqn:Hdb; [|discriminate].
  injection Hcol as <-.
  rewrite (bind_Ok _ _ _ _ _ (col_find_one_Some _ _ _ _ Hdb)) in H.
  destruct (doc_opt_truthy _); [discriminate|].
  apply bind_Ok_inv in H as (ph & w3 & Hhash & H).
  unfold hash_password, pwd_context_hash in Hhash.
  apply bind_Ok_inv in Hhash as (salt & w2 & Hsalt & Hh).
  unfold new_salt in Hsalt. injection Hsalt as <- <-.
  apply lift_Ok_inv in Hh as [_ ->].
  rewrite (bind_Ok _ _ _ _ _ (datetime_now_eq _)) in H.
  rewrite (bind_Ok _ _ _ _ _ (datetime_now_eq _)) in H.
  apply bind_Ok_inv in H as (doc' & w6 & Hins & H).
  apply bind_Ok_inv in H as (u & w7 & Hser & H).
  apply lift_Ok_inv in Hser as [_ ->].
  apply bind_Ok_inv in H as (token & w8 & Htok & H).
  injection H as _ <-.
  pose proof (create_access_token_world
                {[ "sub" := VStr (email u) ]} None w6) as Hw8.
  rewrite Htok in Hw8. simpl in Hw8. subst w8.
  unfold col_insert_one in Hins. simpl in Hins. rewrite Hdb in Hins.
  unfold insert_one in Hins.
  match type of Hins with
  | context [ ?d !! "_id" ] =>
      assert (d !! "_id" = None) as Hid by done; rewrite Hid in Hins
  end.
  unfold bind, new_ObjectId, ret, raise in Hins. simpl in Hins.
  destruct (find_one "_id" _ col); [discriminate|].
  injection Hins as <- <-.
  eexists col, _. by repeat split.
Qed.

(** ** The answer of /auth/me *)

Lemma bind_later {A B} (m : M A) (k : A → M B) (w : World) :
  (∀ w0, later w0 (m w0).2) →
  (∀ a w0, later w0 (k a w0).2) →
  later w (bind m k w).2.
Proof.
  intros Hm Hk. unfold bind. specialize (Hm w).
  destruct (m w) as [[a|e] w1]; simpl in *; [|done].
  eapply later_trans; [done | apply Hk].
Qed.

Lemma validate_claims_later (claims : Doc) (w : World) :
  later w (validate_claims claims w).2.
Proof.
  assert (∀ (b : bool) e w0,
            later w0 ((if b then raise e else ret tt) w0).2) as Hif
    by (intros [] ??; apply later_refl).
  assert (∀ what v (k : Z → M unit) w0,
            (∀ n w1, later w1 (k n w1).2) →
            later w0 ((n <- lift (claim_int what v) ;; k n) w0).2) as Hint.
  { intros what v k w0 Hk. unfold bind, lift.
    destruct (claim_int what v); [apply Hk | apply later_refl]. }
  unfold validate_claims.
  repeat (apply bind_later; [clear w; intros w | clear w; intros _ w]).
  - unfold validate_iat. destruct (claims !! "iat");
      [apply Hint; intros; apply later_refl | apply later_refl].
  - unfold validate_nbf. destruct (claims !! "nbf"); [|apply later_refl].
    apply Hint. intros n w1. unfold bind. rewrite datetime_now_eq.
    eapply later_trans; [apply (later_tick w1 w1), later_refl | apply Hif].
  - unfold validate_exp. destruct (claims !! "exp"); [|apply later_refl].
    apply Hint. intros n w1. unfold bind. rewrite datetime_now_eq.
    eapply later_trans; [apply (later_tick w1 w1), later_refl | apply Hif].
  - unfold validate_aud. destruct (claims !! "aud"); apply later_refl.
  - unfold validate_sub. destruct (claims !! "sub") as [v|];
      [destruct (is_str v)|]; apply later_refl.
  - unfold validate_jti. destruct (claims !! "jti") as [v|];
      [destruct (is_str v)|]; apply later_refl.
  - unfold validate_at_hash. destruct (claims !! "at_hash");
      apply later_refl.
Qed.

Lemma jwt_decode_later (token key : string) (w : World) :
  later w (jwt_decode token key w).2.
Proof.
  unfold jwt_decode. destruct (jws_verify token key); [|apply later_refl].
  apply bind_later; [apply validate_claims_later|].
  intros; apply later_refl.
Qed.

(** Behind a bearer header whose token decodes to a payload with a
    truthy [sub], the resolver's outcome is decided by the user
    document that the lookup by email finds, and by nothing else of
    the collection. *)
Lemma get_current_user_by_email
    (authorization token : string) (w w1 : World) (payload : Doc)
    (col : list Doc) :
  bearer authorization token →
  jwt_decode token (SECRET_KEY cfg) w = (Ok payload, w1) →
  truthy (dict_get payload "sub") = true →
  db w = Some col →
  get_current_user cfg (Some authorization) w =
    match find_one "email" (dict_get payload "sub") col with
    | Some doc => (serialize_user doc, w1)
    | None => (Raise (HTTPException 401 "User not found"), w1)
    end.
Proof.
  intros [Hb Htok] Hdec Hsub Hdb.
  assert (db w1 = Some col) as Hdb1.
  { pose proof (jwt_decode_later token (SECRET_KEY cfg) w) as [Hl _].
    rewrite Hdec in Hl. simpl in Hl. congruence. }
  unfold get_current_user. rewrite Hb. simpl.
  rewrite Htok. unfold bind at 1, lift at 1.
  unfold bind at 1, try_except_JWTError. unfold bind at 1.
  rewrite Hdec, Hsub. simpl.
  rewrite (bind_Ok _ _ _ _ _ (users_col_Some _ _ Hdb1)).
  rewrite (bind_Ok _ _ _ _ _ (col_find_one_Some _ _ _ _ Hdb1)).
  unfold ret at 1.
  rewrite (bind_Ok _ _ _ _ _ (users_col_Some _ _ Hdb1)).
  rewrite (bind_Ok _ _ _ _ _ (col_find_one_Some _ _ _ _ Hdb1)).
  destruct (find_one "email" (dict_get payload "sub") col) as [doc|] eqn:Hf;
    [|done].
  assert (dict_get payload "sub" ≠ VNone) as Hne.
  { intros Hnone. by rewrite Hnone in Hsub. }
  simpl. by rewrite (find_one_truthy _ _ _ _ Hne Hf).
Qed.


End Properties.

(** * The handlers on concrete requests *)

Section Examples.
Import Sim.

(** register("a@x.com", "pw1") answers 200 with a token and the
    public user, and writes [user_a]. *)
Example register_a :
  (register default_config body_a world0).1
  = Ok (mkTokenOut token_a "bearer"
          (mkUserOut "a5f0c0ffee00000000000000" "a@x.com" None))
  ∧ db (register default_config body_a world0).2 = Some [user_a].
Proof. split; [by vm_compute | compute_done]. Qed.

(** GET /auth/me with that token answers the user; without a header
    it answers 401. *)
Example me_a :
  (get_auth_me default_config (Some ("Bearer " ++ token_a)) world_ac).1
  = Ok [("id", VStr "a5f0c0ffee00000000000000");
        ("email", VStr "a@x.com"); ("name", VNone)].
Proof. by vm_compute. Qed.

Example me_no_header :
  (get_auth_me default_config None world_ac).1
  = Raise (HTTPException 401 "Not authenticated").
Proof. by vm_compute. Qed.

(** Registering the same email again answers 409 and the user count
    is unchanged. *)
Example register_a_twice :
  (register default_config body_a
     (register default_config body_a world0).2).1
  = Raise (HTTPException 409 "Email already registered")
  ∧ length <$> db (register default_config body_a
                     (register default_config body_a world0).2).2
    = Some 1%nat.
Proof. split; by vm_compute. Qed.

Example login_a :
  (login default_config (mkLoginBody "a@x.com" "pw1") world_ac).1
  = Ok (mkTokenOut token_a "bearer"
          (mkUserOut "a5f0c0ffee00000000000000" "a@x.com" None)).
Proof. by vm_compute. Qed.

End Examples.

(** * Witnesses and counterexamples *)

Section Witnesses.
Import Sim.


Lemma register_existing_email_conflict_witness :
  db world_ac = Some [user_a; user_c]
  ∧ user_a ∈ [user_a; user_c]
  ∧ user_a !! "email" = Some (VStr "a@x.com")
  ∧ register default_config (mkRegisterBody "a@x.com" "pw2" None) world_ac
    = (Raise (HTTPException 409 "Email already registered"), world_ac).
Proof.
  assert (db world_ac = Some [user_a; user_c]) as H1 by reflexivity.
  assert (user_a ∈ [user_a; user_c]) as H2 by constructor.
  assert (user_a !! "email" = Some (VStr "a@x.com")) as H3 by reflexivity.
  exact (conj H1 (conj H2 (conj H3
    (proj1 (register_existing_email_conflict default_config
              (mkRegisterBody "a@x.com" "pw2" None) world_ac
              [user_a; user_c] user_a H1 H2 H3))))).
Defined.

Lemma issue_then_verify_same_sub_witness :
  expiry_representable default_config world0 = true
  ∧ (∃ token,
      jws_sign (issued_claims default_config "a@x.com" world0) (SECRET_KEY default_config)
      = Ok token
      ∧ jws_verify token (SECRET_KEY default_config)
        = Some (issued_claims default_config "a@x.com" world0))
  ∧ timegm (clock world0 (S (clock_reads world0))) ≤ expiry default_config world0
  ∧ ∃ token w1 payload w2,
      create_access_token default_config {[ "sub" := VStr "a@x.com" ]} None world0
      = (Ok token, w1)
      ∧ jwt_decode token (SECRET_KEY default_config) w1 = (Ok payload, w2)
      ∧ payload !! "sub" = Some (VStr "a@x.com").
Proof.
  assert (expiry_representable default_config world0 = true) as H0
    by reflexivity.
  assert (∃ token,
      jws_sign (issued_claims default_config "a@x.com" world0) (SECRET_KEY default_config)
      = Ok token
      ∧ jws_verify token (SECRET_KEY default_config)
        = Some (issued_claims default_config "a@x.com" world0)) as H1.
  { exists "dev-secret-change-me|1700003600|a@x.com".
    split; vm_compute; reflexivity. }
  assert (timegm (clock world0 (S (clock_reads world0)))
          ≤ expiry default_config world0) as H2.
  { vm_compute. discriminate. }
  exact (conj H0 (conj H1 (conj H2
    (issue_then_verify_same_sub default_config "a@x.com" world0 H0 H1 H2)))).
Defined.

(** C3 fails on the code as stated.  With a configured lifetime of
    5_000_000_000 minutes the expiry lies beyond year 9999: the
    addition raises OverflowError and no token is issued.  With a
    lifetime of -1 minute a token is issued, its signature verifies,
    and the verification that follows at once rejects it as expired,
    so no payload is returned. *)
Lemma issue_then_verify_fails_outside_lifetime :
  (create_access_token (mkConfig "dev-secret-change-me" 5000000000)
     {[ "sub" := VStr "a@x.com" ]} None world0).1
  = Raise OverflowError
  ∧ (create_access_token (mkConfig "dev-secret-change-me" (-1))
       {[ "sub" := VStr "a@x.com" ]} None world0).1
    = Ok "dev-secret-change-me|1699999940|a@x.com"
  ∧ jws_verify "dev-secret-change-me|1699999940|a@x.com"
      "dev-secret-change-me"
    = Some (<["exp" := VInt 1699999940]> {[ "sub" := VStr "a@x.com" ]})
  ∧ (jwt_decode "dev-secret-change-me|1699999940|a@x.com"
       "dev-secret-change-me"
       (create_access_token (mkConfig "dev-secret-change-me" (-1))
          {[ "sub" := VStr "a@x.com" ]} None world0).2).1
    = Raise ExpiredSignatureError.
Proof. repeat split; by vm_compute. Qed.

(** C4 fails on the code as stated.  The token below has a valid
    signature and [exp] 1_700_000_000; the clock of [world_ac] reads
    half a second after that instant, so [exp] is not in the future
    and has passed, and [get_current_user] still resolves the user. *)
Lemma token_accepted_in_second_of_expiry :
  jws_verify "dev-secret-change-me|1700000000|a@x.com" (SECRET_KEY default_config)
  = Some (<["exp" := VInt 1700000000]> {[ "sub" := VStr "a@x.com" ]})
  ∧ 1700000000 * 1000000 < clock world_ac (clock_reads world_ac)
  ∧ (get_current_user default_config
       (Some "Bearer dev-secret-change-me|1700000000|a@x.com")
       world_ac).1
    = Ok (mkUserOut "a5f0c0ffee00000000000000" "a@x.com" None).
Proof. repeat split; by vm_compute. Qed.

Lemma get_current_user_rejects_invalid_token_witness :
  bearer "Bearer a-forged-key|1700003600|a@x.com"
         "a-forged-key|1700003600|a@x.com"
  ∧ jws_verify "a-forged-key|1700003600|a@x.com" (SECRET_KEY default_config) = None
  ∧ ∃ w', get_current_user default_config
            (Some "Bearer a-forged-key|1700003600|a@x.com") world_ac
          = (Raise (HTTPException 401 "Invalid token"), w')
          ∧ db w' = db world_ac.
Proof.
  pose proof (bearer_intro "a-forged-key|1700003600|a@x.com") as H1.
  assert (jws_verify "a-forged-key|1700003600|a@x.com" (SECRET_KEY default_config)
          = None) as H2 by reflexivity.
  exact (conj H1 (conj H2
    (get_current_user_rejects_invalid_token default_config _ _ world_ac H1
       (or_introl H2)))).
Defined.

(** C5 fails on the code.  In [world_ac] the user c@x.com has no
    [password_hash].  A login for an email that matches no user ends
    with HTTPException 401; a login for c@x.com, with whatever
    password, ends with the UnknownHashError that [verify_password]
    raises and [login] does not catch, status 500.  The two answers
    differ, and tell that c@x.com is registered. *)
Theorem login_failure_tells_user_without_hash :
  db world_ac = Some [user_a; user_c]
  ∧ find_one "email" (VStr "nobody@x.com") [user_a; user_c] = None
  ∧ find_one "email" (VStr "c@x.com") [user_a; user_c] = Some user_c
  ∧ login default_config (mkLoginBody "nobody@x.com" "pw") world_ac
    = (Raise (HTTPException 401 "Invalid email or password"), world_ac)
  ∧ login default_config (mkLoginBody "c@x.com" "pw") world_ac
    = (Raise UnknownHashError, world_ac)
  ∧ http_status
      (login default_config (mkLoginBody "nobody@x.com" "pw") world_ac).1
    = 401
  ∧ http_status
      (login default_config (mkLoginBody "c@x.com" "pw") world_ac).1
    = 500.
Proof.
  assert (db world_ac = Some [user_a; user_c]) as H1 by reflexivity.
  assert (find_one "email" (VStr "nobody@x.com") [user_a; user_c] = None)
    as H2 by reflexivity.
  assert (find_one "email" (VStr "c@x.com") [user_a; user_c]
          = Some user_c) as H3 by reflexivity.
  rewrite (login_not_found default_config
             (mkLoginBody "nobody@x.com" "pw") _ _ H1 H2).
  rewrite (login_found default_config
             (mkLoginBody "c@x.com" "pw") _ _ _ H1 H3).
  by repeat split.
Qed.

Lemma login_failure_indistinguishable_witness :
  db world_ac = Some [user_a; user_c]
  ∧ find_one "email" (VStr "nobody@x.com") [user_a; user_c] = None
  ∧ find_one "email" (VStr "a@x.com") [user_a; user_c] = Some user_a
  ∧ verify_password "not-pw1"
      (dict_get_default user_a "password_hash" (VStr "")) = Ok false
  ∧ login default_config (mkLoginBody "nobody@x.com" "pw1") world_ac
    = login default_config (mkLoginBody "a@x.com" "not-pw1") world_ac.
Proof.
  assert (db world_ac = Some [user_a; user_c]) as H1 by reflexivity.
  assert (find_one "email" (VStr "nobody@x.com") [user_a; user_c] = None)
    as H2 by reflexivity.
  assert (find_one "email" (VStr "a@x.com") [user_a; user_c]
          = Some user_a) as H3 by reflexivity.
  assert (verify_password "not-pw1"
            (dict_get_default user_a "password_hash" (VStr ""))
          = Ok false) as H4 by reflexivity.
  exact (conj H1 (conj H2 (conj H3 (conj H4
    (proj1 (login_failure_indistinguishable default_config
              (mkLoginBody "nobody@x.com" "pw1")
              (mkLoginBody "a@x.com" "not-pw1")
              world_ac [user_a; user_c] user_a H1 H2 H3 H4)))))).
Defined.

Lemma login_unidentified_hash_unhandled_witness :
  db world_ac = Some [user_a; user_c]
  ∧ find_one "email" (VStr "c@x.com") [user_a; user_c] = Some user_c
  ∧ user_c !! "password_hash" = None
  ∧ login default_config (mkLoginBody "c@x.com" "pw") world_ac
    = (Raise UnknownHashError, world_ac)
  ∧ http_status (login default_config (mkLoginBody "c@x.com" "pw") world_ac).1 = 500.
Proof.
  assert (db world_ac = Some [user_a; user_c]) as H1 by reflexivity.
  assert (find_one "email" (VStr "c@x.com") [user_a; user_c]
          = Some user_c) as H2 by reflexivity.
  assert (user_c !! "password_hash" = None) as H3 by reflexivity.
  exact (conj H1 (conj H2 (conj H3
    (proj2 (login_unidentified_hash_unhandled default_config
              (mkLoginBody "c@x.com" "pw") world_ac
              [user_a; user_c] user_c H1 H2 (or_introl H3)))))).
Defined.

(** C7 fails on the code as stated.  A register request with an empty
    password and an unused, well-formed email is not stopped at input
    validation: it answers 200 with a token, and a user record has
    been written. *)
Lemma register_empty_password_accepted :
  (post_auth_register default_config
     {[ "email" := VStr "b@x.com"; "password" := VStr "" ]} world_ac).1
  = Ok (mkTokenOut "dev-secret-change-me|1700003600|b@x.com" "bearer"
          (mkUserOut "d5f0c0ffee00000000000000" "b@x.com" None))
  ∧ length <$> db world_ac = Some 2%nat
  ∧ length <$> db (post_auth_register default_config
                     {[ "email" := VStr "b@x.com"; "password" := VStr "" ]}
                     world_ac).2
    = Some 3%nat.
Proof. repeat split; by vm_compute. Qed.

Lemma post_auth_register_rejects_malformed_email_witness :
  ({[ "email" := VStr "not-an-address"; "password" := VStr "pw1" ]} : Doc)
    !! "email" ≫= validate_EmailStr = None
  ∧ post_auth_register default_config
      {[ "email" := VStr "not-an-address"; "password" := VStr "pw1" ]}
      world_ac
    = (Raise RequestValidationError, world_ac).
Proof.
  assert (({[ "email" := VStr "not-an-address";
              "password" := VStr "pw1" ]} : Doc)
            !! "email" ≫= validate_EmailStr = None) as H1 by reflexivity.
  exact (conj H1
    (proj1 (post_auth_register_rejects_malformed_email default_config _ world_ac H1))).
Defined.

(** C8 fails on the code.  In [world0] the clock advances by 1.5 ms
    between two readings; the record that [register] writes carries
    the first reading as [created_at] and the second as [updated_at],
    which differ, also at the millisecond precision of the store. *)
Theorem register_timestamps_differ :
  http_status (register default_config (mkRegisterBody "a@x.com" "pw1" None) world0).1
  = 200
  ∧ ∃ stored,
      db (register default_config (mkRegisterBody "a@x.com" "pw1" None) world0).2
      = Some [stored]
      ∧ stored !! "created_at" = Some (VDatetime 1700000000000000)
      ∧ stored !! "updated_at" = Some (VDatetime 1700000000001000)
      ∧ stored !! "created_at" ≠ stored !! "updated_at"
      ∧ stored !! "is_active" = Some (VBool true).
Proof.
  split; [by vm_compute|]. exists user_a.
  repeat split; by vm_compute.
Qed.


End Witnesses.

(** * Further properties of the handlers *)

Section Further.
Context {L : Libs} (cfg : Config).

(** ** What the handlers do to the world *)

Lemma later_db (w w' : World) : later w w' → db w' = db w.
Proof. by intros [? _]. Qed.

Lemma hash_password_later (password : string) (w : World) :
  later w (hash_password password w).2.
Proof.
  unfold hash_password, pwd_context_hash, bind, new_salt, lift.
  by destruct (bcrypt_hash _ password).
Qed.

Lemma create_access_token_later
    (data : Doc) (delta : option Z) (w : World) :
  later w (create_access_token cfg data delta w).2.
Proof.
  rewrite create_access_token_world. apply later_tick, later_refl.
Qed.

Lemma serialize_user_new_user_doc
    (body : RegisterBody) (h oid : string) (t1 t2 : Z) :
  serialize_user (<["_id" := VObjectId oid]> (new_user_doc body h t1 t2))
  = match email_validate (reg_email body) with
    | Some e => Ok (mkUserOut oid e (reg_name body))
    | None => Raise ValidationError
    end.
Proof.
  unfold serialize_user, new_UserOut, dict_get, new_user_doc.
  assert (∀ (d : Doc) k v, d !! k = Some v → default VNone (d !! k) = v)
    as Hget by (by intros ??? ->).
  rewrite (Hget _ "_id" (VObjectId oid)) by done.
  rewrite (Hget _ "email" (VStr (reg_email body))) by done.
  rewrite (Hget _ "name" (opt_str_value (reg_name body))) by done.
  simpl. destruct (email_validate (reg_email body)); [|done].
  by destruct (reg_name body).
Qed.

(** [register] for an email that the collection does not hold yet, step
    by step: the hash, the two clock readings, the insert, the public
    user, the token. *)
Lemma register_fresh (body : RegisterBody) (w : World) (col : list Doc) :
  db w = Some col →
  find_one "email" (VStr (reg_email body)) col = None →
  register cfg body w =
    match bcrypt_hash (salts w (salt_count w)) (reg_password body) with
    | Raise e => (Raise e, salted w)
    | Ok h =>
        let oid := oids w (oid_count w) in
        let doc := <["_id" := VObjectId oid]>
                     (new_user_doc body h (clock w (clock_reads w))
                        (clock w (S (clock_reads w)))) in
        match find_one "_id" (VObjectId oid) col with
        | Some _ => (Raise DuplicateKeyError, stamped w)
        | None =>
            let w' := with_col (stamped w) (col ++ [bson_value <$> doc]) in
            match email_validate (reg_email body) with
            | None => (Raise ValidationError, w')
            | Some e =>
                if expiry_representable cfg w'
                then
                  match
                    jws_sign (issued_claims cfg e w') (SECRET_KEY cfg)
                  with
                  | Ok token =>
                      (Ok (mkTokenOut token "bearer"
                             (mkUserOut oid e (reg_name body))), tick w')
                  | Raise x => (Raise x, tick w')
                  end
                else (Raise OverflowError, tick w')
            end
        end
    end.
Proof.
  intros Hdb Hfree. unfold register.
  rewrite (bind_Ok _ _ _ _ _ (users_col_Some _ _ Hdb)).
  rewrite (bind_Ok _ _ _ _ _ (col_find_one_Some _ _ _ _ Hdb)).
  rewrite Hfree. simpl.
  unfold bind at 1. unfold hash_password, pwd_context_hash.
  unfold bind at 1, new_salt, lift at 1.
  destruct (bcrypt_hash (salts w (salt_count w)) (reg_password body))
    as [h|e]; [|done].
  rewrite (bind_Ok _ _ _ _ _ (datetime_now_eq _)).
  rewrite (bind_Ok _ _ _ _ _ (datetime_now_eq _)). simpl.
  fold (new_user_doc body h (clock w (clock_reads w))
          (clock w (S (clock_reads w)))).
  unfold bind at 1. unfold col_insert_one. simpl. rewrite Hdb.
  unfold insert_one.
  assert (new_user_doc body h (clock w (clock_reads w))
            (clock w (S (clock_reads w))) !! "_id" = None) as -> by done.
  unfold bind at 1. unfold bind at 1. unfold new_ObjectId at 1, ret at 1.
  simpl.
  assert (∀ d : Doc, dict_get (<["_id" := VObjectId (oids w (oid_count w))]> d)
                       "_id" = VObjectId (oids w (oid_count w))) as ->.
  { intros d. unfold dict_get. by rewrite lookup_insert_eq. }
  destruct (find_one "_id" (VObjectId (oids w (oid_count w))) col);
    [by unfold raise, stamped; rewrite Hdb|].
  unfold ret at 1. simpl.
  unfold bind at 1, lift at 1. rewrite serialize_user_new_user_doc.
  destruct (email_validate (reg_email body)) as [e|]; [|done].
  unfold bind at 1. rewrite create_access_token_eq. simpl.
  destruct (expiry_representable cfg _); [|done].
  by destruct (jws_sign _ _).
Qed.

Lemma register_no_db (body : RegisterBody) (w : World) :
  db w = None →
  register cfg body w
  = (Raise (HTTPException 500 "Database not available"), w).
Proof.
  intros Hdb. unfold register.
  by rewrite (bind_Raise _ _ _ _ _ (users_col_None _ Hdb)).
Qed.

Lemma register_taken (body : RegisterBody) (w : World) col d :
  db w = Some col →
  find_one "email" (VStr (reg_email body)) col = Some d →
  register cfg body w
  = (Raise (HTTPException 409 "Email already registered"), w).
Proof.
  intros Hdb Hd. unfold register.
  rewrite (bind_Ok _ _ _ _ _ (users_col_Some _ _ Hdb)).
  rewrite (bind_Ok _ _ _ _ _ (col_find_one_Some _ _ _ _ Hdb)).
  rewrite Hd. simpl. by rewrite (find_one_str_truthy _ _ _ _ Hd).
Qed.

(** Splits a goal about [register cfg body w] into the outcomes of the
    request: no database, email taken, and for a free email every way
    the run can end. *)
Ltac register_outcomes body w :=
  let col := fresh "col" in
  let Hdb := fresh "Hdb" in
  let Hfree := fresh "Hfree" in
  destruct (db w) as [col|] eqn:Hdb;
  [ destruct (find_one "email" (VStr (reg_email body)) col) eqn:Hfree;
    [ rewrite (register_taken body w col _ Hdb Hfree)
    | rewrite (register_fresh body w col Hdb Hfree);
      destruct (bcrypt_hash (salts w (salt_count w)) (reg_password body));
      [ cbv zeta;
        destruct (find_one "_id" (VObjectId (oids w (oid_count w))) col);
        [ | destruct (email_validate (reg_email body));
            [ destruct (expiry_representable cfg _);
              [ destruct (jws_sign _ (SECRET_KEY cfg)) | ] | ] ]
      | ] ]
  | rewrite (register_no_db body w Hdb) ].

(** X1. A [register] that returns has found the email free, and has
    appended to the collection exactly one record: the request's email
    and name, the hash that the bcrypt handler returned for the
    request's password under the next salt, the first two clock
    readings as timestamps, [is_active] true, under the next ObjectId.
    The answer carries that ObjectId, the validated email and the name
    as public user, token type "bearer", and a token signed for the
    validated email that expires the configured lifetime after the
    third clock reading. *)
Theorem register_success
    (body : RegisterBody) (w w' : World) (r : TokenOut) :
  register cfg body w = (Ok r, w') →
  ∃ col h e,
    db w = Some col
    ∧ find_one "email" (VStr (reg_email body)) col = None
    ∧ bcrypt_hash (salts w (salt_count w)) (reg_password body) = Ok h
    ∧ email_validate (reg_email body) = Some e
    ∧ db w'
      = Some (col ++ [bson_value <$>
                        <["_id" := VObjectId (oids w (oid_count w))]>
                          (new_user_doc body h (clock w (clock_reads w))
                             (clock w (S (clock_reads w))))])%list
    ∧ user r = mkUserOut (oids w (oid_count w)) e (reg_name body)
    ∧ token_type r = "bearer"
    ∧ jws_sign
        (<["exp" := VInt (timegm
                            (clock w (S (S (clock_reads w)))
                             + timedelta_minutes
                                 (ACCESS_TOKEN_EXPIRE_MINUTES cfg)))]>
           {[ "sub" := VStr e ]})
        (SECRET_KEY cfg) = Ok (access_token r)
    ∧ clock_reads w' = S (S (S (clock_reads w))).
Proof.
  intros H.
  destruct (db w) as [col|] eqn:Hdb;
    [|by rewrite (register_no_db body w Hdb) in H].
  destruct (find_one "email" (VStr (reg_email body)) col) as [d|] eqn:Hfree;
    [by rewrite (register_taken body w col d Hdb Hfree) in H|].
  rewrite (register_fresh body w col Hdb Hfree) in H.
  destruct (bcrypt_hash (salts w (salt_count w)) (reg_password body))
    as [h|] eqn:Hh; [|discriminate].
  cbv zeta in H.
  destruct (find_one "_id" (VObjectId (oids w (oid_count w))) col);
    [discriminate|].
  destruct (email_validate (reg_email body)) as [e|] eqn:He;
    [|discriminate].
  destruct (expiry_representable cfg _); [|discriminate].
  destruct (jws_sign _ (SECRET_KEY cfg)) as [token|] eqn:Hsign;
    [|discriminate].
  injection H as <- <-.
  exists col, h, e. by repeat split.
Qed.

(** X2. Whatever a [register] request ends with, it has either left
    the collection as it was or appended one record to it, and then
    the email of the request was not in the collection before and is
    the email of the appended record. *)
Theorem register_appends_at_most_one (body : RegisterBody) (w : World) :
  db (register cfg body w).2 = db w
  ∨ ∃ col stored,
      db w = Some col
      ∧ find_one "email" (VStr (reg_email body)) col = None
      ∧ db (register cfg body w).2 = Some (col ++ [stored])%list
      ∧ stored !! "email" = Some (VStr (reg_email body)).
Proof.
  register_outcomes body w; simpl; try (by left);
    right; eexists _, _; by repeat split.
Qed.

(** ** Uniqueness of emails *)

Lemma find_one_None_not_in_emails (e : string) (col : list Doc) :
  find_one "email" (VStr e) col = None → VStr e ∉ emails col.
Proof.
  intros Hf Hin. unfold emails in Hin.
  apply list_elem_of_omap in Hin as (d & Hd & Hde).
  apply matches_str_lookup in Hde.
  by rewrite (find_one_None _ _ _ d Hf Hd) in Hde.
Qed.

Lemma emails_snoc (col : list Doc) (d : Doc) (v : Value) :
  d !! "email" = Some v → emails (col ++ [d]) = (emails col ++ [v])%list.
Proof. intros Hd. unfold emails. rewrite omap_app. simpl. by rewrite Hd. Qed.

Lemma unique_emails_snoc (col : list Doc) (d : Doc) (e : string) :
  NoDup (emails col) →
  find_one "email" (VStr e) col = None →
  d !! "email" = Some (VStr e) →
  NoDup (emails (col ++ [d])).
Proof.
  intros Hnd Hfree Hd. rewrite (emails_snoc col d _ Hd).
  apply NoDup_app. split; [done|]. split.
  - intros v Hv Hin. apply list_elem_of_singleton in Hin as ->.
    by apply (find_one_None_not_in_emails e col).
  - apply NoDup_singleton.
Qed.

(** X3. [register] keeps emails unique: if no two records of the
    collection carry the same email before the request, none do after
    it, whether the request succeeds or fails. *)
Theorem register_preserves_unique_emails
    (body : RegisterBody) (w : World) :
  unique_emails (db w) → unique_emails (db (register cfg body w).2).
Proof.
  intros Hu.
  register_outcomes body w; simpl; rewrite ?Hdb; try done;
    by eapply unique_emails_snoc.
Qed.

(** ** Login *)

Lemma login_no_db (body : LoginBody) (w : World) :
  db w = None →
  login cfg body w
  = (Raise (HTTPException 500 "Database not available"), w).
Proof.
  intros Hdb. unfold login.
  by rewrite (bind_Raise _ _ _ _ _ (users_col_None _ Hdb)).
Qed.

(** The last part of [login], once the password is verified. *)
Lemma login_issue (doc : Doc) (w : World) :
  (user <- lift (serialize_user doc) ;;
   token <- create_access_token cfg {[ "sub" := VStr (email user) ]} None ;;
   ret (mkTokenOut token "bearer" user)) w
  = match serialize_user doc with
    | Raise e => (Raise e, w)
    | Ok u =>
        if expiry_representable cfg w
        then
          match
            jws_sign (issued_claims cfg (email u) w) (SECRET_KEY cfg)
          with
          | Ok token => (Ok (mkTokenOut token "bearer" u), tick w)
          | Raise e => (Raise e, tick w)
          end
        else (Raise OverflowError, tick w)
    end.
Proof.
  unfold bind at 1, lift at 1.
  destruct (serialize_user doc) as [u|e]; [|done].
  unfold bind at 1. rewrite create_access_token_eq.
  destruct (expiry_representable cfg w); [|done].
  by destruct (jws_sign _ _).
Qed.

(** X4. [login] returns a token only for a stored user whose password
    was verified: when it returns, the collection holds a record with
    the email of the request, [verify_password] has answered [True] for
    the request's password against that record's [password_hash], the
    public user of the answer is that record's, and the token is signed
    for its email.  The only effect is one reading of the clock. *)
Theorem login_sound (body : LoginBody) (w w' : World) (r : TokenOut) :
  login cfg body w = (Ok r, w') →
  ∃ col doc,
    db w = Some col
    ∧ find_one "email" (VStr (login_email body)) col = Some doc
    ∧ verify_password (login_password body)
        (dict_get_default doc "password_hash" (VStr "")) = Ok true
    ∧ serialize_user doc = Ok (user r)
    ∧ token_type r = "bearer"
    ∧ jws_sign (issued_claims cfg (email (user r)) w) (SECRET_KEY cfg)
      = Ok (access_token r)
    ∧ w' = tick w.
Proof.
  intros H.
  destruct (db w) as [col|] eqn:Hdb;
    [|by rewrite (login_no_db body w Hdb) in H].
  destruct (find_one "email" (VStr (login_email body)) col) as [doc|]
    eqn:Hdoc; [|by rewrite (login_not_found cfg body w col Hdb Hdoc) in H].
  rewrite (login_found cfg body w col doc Hdb Hdoc) in H.
  destruct (verify_password _ _) as [[]|] eqn:Hv; try discriminate.
  rewrite login_issue in H.
  destruct (serialize_user doc) as [u|] eqn:Hu; [|discriminate].
  destruct (expiry_representable cfg w); [|discriminate].
  destruct (jws_sign _ _) as [token|] eqn:Hsign; [|discriminate].
  injection H as <- <-. exists col, doc. by repeat split.
Qed.

(** X5. [login] is read-only: whatever it answers, the world it leaves
    is the one it found, but for at most one reading of the clock;
    the collection, the salts and the ObjectIds are untouched. *)
Theorem login_read_only (body : LoginBody) (w : World) :
  (login cfg body w).2 = w ∨ (login cfg body w).2 = tick w.
Proof.
  destruct (db w) as [col|] eqn:Hdb;
    [|left; by rewrite (login_no_db body w Hdb)].
  destruct (find_one "email" (VStr (login_email body)) col) as [doc|]
    eqn:Hdoc;
    [|left; by rewrite (login_not_found cfg body w col Hdb Hdoc)].
  rewrite (login_found cfg body w col doc Hdb Hdoc).
  destruct (verify_password _ _) as [[]|]; try (by left).
  rewrite login_issue.
  destruct (serialize_user doc); [|by left].
  destruct (expiry_representable cfg w); [|by right].
  destruct (jws_sign _ _); by right.
Qed.

(** ** Round trips *)

Lemma find_one_snoc (field : string) (v : Value) (col : list Doc) (d : Doc) :
  find_one field v col = None →
  matches field v d = true →
  find_one field v (col ++ [d]) = Some d.
Proof.
  unfold find_one. intros Hnone Hd.
  induction col as [|d0 col IH]; simpl in *; [by rewrite Hd|].
  destruct (matches field v d0); [discriminate | by apply IH].
Qed.

(** The record that [register] stores, read back. *)
Lemma stored_user_fields
    (body : RegisterBody) (h oid : string) (t1 t2 : Z) :
  let stored : Doc :=
    bson_value <$> <["_id" := VObjectId oid]> (new_user_doc body h t1 t2) in
  stored !! "email" = Some (VStr (reg_email body))
  ∧ dict_get_default stored "password_hash" (VStr "") = VStr h
  ∧ serialize_user stored
    = serialize_user (<["_id" := VObjectId oid]> (new_user_doc body h t1 t2)).
Proof.
  split; [done|]. split; [done|].
  unfold serialize_user, dict_get, new_user_doc.
  assert (∀ (d : Doc) k v, d !! k = Some v → default VNone (d !! k) = v)
    as Hget by (by intros ??? ->).
  rewrite (Hget (bson_value <$> _) "_id" (VObjectId oid)) by done.
  rewrite (Hget (bson_value <$> _) "email" (VStr (reg_email body))) by done.
  rewrite (Hget (<["_id" := _]> _) "_id" (VObjectId oid)) by done.
  rewrite (Hget (<["_id" := _]> _) "email" (VStr (reg_email body))) by done.
  f_equal.
  rewrite (Hget (<["_id" := _]> _) "name" (opt_str_value (reg_name body)))
    by done.
  apply Hget. rewrite lookup_fmap.
  assert ((<["_id" := VObjectId oid]>
             ({[ "email" := VStr (reg_email body);
                 "password_hash" := VStr h;
                 "name" := opt_str_value (reg_name body);
                 "created_at" := VDatetime t1;
                 "updated_at" := VDatetime t2;
                 "is_active" := VBool true ]} : Doc)) !! "name"
          = Some (opt_str_value (reg_name body))) as -> by done.
  by destruct (reg_name body).
Qed.

(** X6. Register, then log in.  After a successful [register], a
    [login] with the same email and password succeeds and answers the
    same public user, provided the bcrypt handler recognises and
    verifies the hash it produced for that password and the token for
    the login can be signed.  The one way past this is the range of
    [datetime]: should the expiry of the new token no longer be
    representable, the login ends with OverflowError. *)
Theorem register_then_login
    (body : RegisterBody) (w w' : World) (r : TokenOut)
    (h token : string) :
  register cfg body w = (Ok r, w') →
  bcrypt_hash (salts w (salt_count w)) (reg_password body) = Ok h →
  bcrypt_identify h = true →
  bcrypt_verify (reg_password body) h = Ok true →
  jws_sign (issued_claims cfg (email (user r)) w') (SECRET_KEY cfg)
    = Ok token →
  login cfg (mkLoginBody (reg_email body) (reg_password body)) w'
  = (if expiry_representable cfg w'
     then Ok (mkTokenOut token "bearer" (user r))
     else Raise OverflowError, tick w').
Proof.
  intros H Hh Hid Hver Hsign.
  destruct (db w) as [col|] eqn:Hdb;
    [|by rewrite (register_no_db body w Hdb) in H].
  destruct (find_one "email" (VStr (reg_email body)) col) as [d|] eqn:Hfree;
    [by rewrite (register_taken body w col d Hdb Hfree) in H|].
  rewrite (register_fresh body w col Hdb Hfree), Hh in H. cbv zeta in H.
  destruct (find_one "_id" (VObjectId (oids w (oid_count w))) col);
    [discriminate|].
  destruct (email_validate (reg_email body)) as [e|] eqn:He;
    [|discriminate].
  destruct (expiry_representable cfg _); [|discriminate].
  destruct (jws_sign _ (SECRET_KEY cfg)) as [token0|]; [|discriminate].
  injection H as <- <-.
  pose proof (stored_user_fields body h (oids w (oid_count w))
                (clock w (clock_reads w)) (clock w (S (clock_reads w))))
    as (Hemail & Hhash & Hser).
  cbv zeta in Hemail, Hhash, Hser.
  set (stored := bson_value <$> _) in *.
  assert (find_one "email" (VStr (reg_email body)) (col ++ [stored])
          = Some stored) as Hfound.
  { apply find_one_snoc; [done|]. by apply matches_str_lookup. }
  set (w1 := tick (with_col (stamped w) (col ++ [stored]))) in *.
  assert (db w1 = Some (col ++ [stored])%list) as Hdb1 by done.
  rewrite (login_found cfg (mkLoginBody (reg_email body) (reg_password body))
             w1 (col ++ [stored]) stored Hdb1 Hfound).
  simpl. rewrite Hhash.
  unfold verify_password, pwd_context_verify. rewrite Hid, Hver.
  rewrite login_issue, Hser, serialize_user_new_user_doc, He.
  cbn [email user] in *. rewrite Hsign.
  by destruct (expiry_representable cfg w1).
Qed.

(** X7. Register, then ask who I am.  The token that a successful
    [register] returns, sent back as [Bearer <token>], resolves to the
    public user of the register answer, provided the validated email is
    the stored one (it is not empty), the token verifies to the claims
    set that was signed, and the resolver reads the clock no later than
    the second in which the token expires. *)
Theorem register_then_me
    (body : RegisterBody) (w w' : World) (r : TokenOut) :
  register cfg body w = (Ok r, w') →
  email (user r) = reg_email body →
  reg_email body ≠ "" →
  jws_verify (access_token r) (SECRET_KEY cfg)
    = Some (issued_claims cfg (email (user r)) (tick (tick w))) →
  timegm (clock w' (clock_reads w')) ≤ expiry cfg (tick (tick w)) →
  get_current_user cfg (Some ("Bearer " ++ access_token r)) w'
  = (Ok (user r), tick w').
Proof.
  intros H Hemail Hne Hverify Hnow.
  destruct (db w) as [col|] eqn:Hdb;
    [|by rewrite (register_no_db body w Hdb) in H].
  destruct (find_one "email" (VStr (reg_email body)) col) as [d|] eqn:Hfree;
    [by rewrite (register_taken body w col d Hdb Hfree) in H|].
  rewrite (register_fresh body w col Hdb Hfree) in H.
  destruct (bcrypt_hash (salts w (salt_count w)) (reg_password body))
    as [h|]; [|discriminate].
  cbv zeta in H.
  destruct (find_one "_id" (VObjectId (oids w (oid_count w))) col);
    [discriminate|].
  destruct (email_validate (reg_email body)) as [e|] eqn:He;
    [|discriminate].
  destruct (expiry_representable cfg _); [|discriminate].
  destruct (jws_sign _ (SECRET_KEY cfg)) as [token|]; [|discriminate].
  injection H as <- <-. cbn [email user access_token] in *. subst e.
  pose proof (stored_user_fields body h (oids w (oid_count w))
                (clock w (clock_reads w)) (clock w (S (clock_reads w))))
    as (Hstored & _ & Hser).
  cbv zeta in Hstored, Hser.
  set (stored := bson_value <$> _) in *.
  set (w1 := tick (with_col (stamped w) (col ++ [stored]))) in *.
  assert (jwt_decode token (SECRET_KEY cfg) w1
          = (Ok (issued_claims cfg (reg_email body) (tick (tick w))),
             tick w1)) as Hdec.
  { unfold jwt_decode. rewrite Hverify.
    unfold issued_claims at 1, bind. rewrite validate_claims_sub_exp.
    by rewrite (proj2 (Z.ltb_ge _ _) Hnow). }
  assert (dict_get (issued_claims cfg (reg_email body) (tick (tick w))) "sub"
          = VStr (reg_email body)) as Hsub by done.
  rewrite (get_current_user_by_email cfg _ token w1 (tick w1) _
             (col ++ [stored]) (bearer_intro token) Hdec).
  - rewrite Hsub, (find_one_snoc _ _ col stored Hfree);
      [|by apply matches_str_lookup].
    by rewrite Hser, serialize_user_new_user_doc, He.
  - rewrite Hsub. simpl. by destruct (reg_email body).
  - done.
Qed.

(** ** The Authorization header *)

Lemma ascii_lower_space (c : ascii) :
  ascii_lower c = " "%char → c = " "%char.
Proof.
  destruct c as [[] [] [] [] [] [] [] []]; vm_compute; congruence.
Qed.

Lemma ascii_lower_letter_not_space (c x : ascii) :
  ascii_lower c = x → x ≠ " "%char → Ascii.eqb c " " = false.
Proof.
  intros Hc Hx. apply Ascii.eqb_neq. intros ->. by apply Hx.
Qed.

(** X8. A header that passes the check of the bearer scheme is a
    six-letter scheme that reads "bearer" in any mix of cases, one
    space, and the token: [split(" ", 1)[1]] then never fails, and the
    token it yields is everything after that space, further spaces
    included. *)
Theorem bearer_header_token (a : string) :
  not_bearer (Some a) = false →
  ∃ scheme token,
    a = (scheme ++ " " ++ token)%string
    ∧ lower scheme = "bearer"
    ∧ index_1 (split_space_1 a) = Ok token.
Proof.
  unfold not_bearer, startswith. intros H.
  apply orb_false_elim in H as [_ H]. apply negb_false_iff in H.
  do 7 (destruct a as [|? a]; cbn [String.prefix lower] in H;
        [discriminate|];
        match type of H with
        | context [ascii_dec ?x ?y] =>
            destruct (ascii_dec x y) as [?Heq|]; [|discriminate]
        end).
  symmetry in Heq5. apply ascii_lower_space in Heq5 as ->.
  exists (String a0 (String a1 (String a2 (String a3 (String a4
            (String a5 EmptyString)))))), a.
  split; [done|]. split; [simpl; congruence|].
  simpl.
  rewrite (ascii_lower_letter_not_space a0 "b") by done.
  rewrite (ascii_lower_letter_not_space a1 "e") by done.
  rewrite (ascii_lower_letter_not_space a2 "a") by done.
  rewrite (ascii_lower_letter_not_space a3 "r") by done.
  rewrite (ascii_lower_letter_not_space a4 "e") by done.
  rewrite (ascii_lower_letter_not_space a5 "r") by done.
  done.
Qed.

(** ** The identity resolver *)

(** Runs the claim checks through every combination of their
    outcomes. *)
Ltac run_checks :=
  unfold validate_claims, validate_iat, validate_nbf, validate_exp,
    validate_aud, validate_sub, validate_jti, validate_at_hash,
    bind, lift, ret, raise, datetime_now;
  repeat (case_match; simplify_eq/=).

Lemma validate_claims_ticks (claims : Doc) (w : World) :
  ∃ n, (n ≤ 2)%nat ∧ (validate_claims claims w).2 = Nat.iter n tick w.
Proof.
  run_checks.
  all: first [ exists 0%nat; split; [lia|reflexivity]
             | exists 1%nat; split; [lia|reflexivity]
             | exists 2%nat; split; [lia|reflexivity] ].
Qed.

(** The checks do not look at the collection. *)
Lemma validate_claims_with_col (claims : Doc) (w : World) (col : list Doc) :
  validate_claims claims (with_col w col)
  = ((validate_claims claims w).1, with_col (validate_claims claims w).2 col).
Proof. run_checks. all: done. Qed.

(** What claims that passed the checks are like. *)
Lemma validate_claims_Ok_sub (claims : Doc) (w w' : World) (v : Value) :
  validate_claims claims w = (Ok tt, w') →
  claims !! "sub" = Some v → is_str v = true.
Proof. intros H Hv. revert H. run_checks; intros ?; by simplify_eq/=. Qed.

Lemma validate_claims_Ok_exp (claims : Doc) (w w' : World) (e : Z) :
  validate_claims claims w = (Ok tt, w') →
  claims !! "exp" = Some (VInt e) →
  ∃ m, (clock_reads w ≤ m)%nat ∧ timegm (clock w m) ≤ e.
Proof.
  intros H He. revert H. run_checks; intros ?; simplify_eq/=.
  all: match goal with
       | |- ∃ m, (clock_reads ?w0 ≤ m)%nat ∧ _ =>
           first [ exists (clock_reads w0); split;
                   [lia | by apply Z.ltb_ge]
                 | exists (S (clock_reads w0)); split;
                   [lia | by apply Z.ltb_ge] ]
       end.
Qed.

Lemma jwt_decode_ticks (token key : string) (w : World) :
  ∃ n, (n ≤ 2)%nat ∧ (jwt_decode token key w).2 = Nat.iter n tick w.
Proof.
  unfold jwt_decode. destruct (jws_verify token key) as [claims|];
    [|by exists 0%nat; split; [lia|]].
  destruct (validate_claims_ticks claims w) as (n & Hn & Hw).
  exists n. split; [done|]. unfold bind.
  by destruct (validate_claims claims w) as [[[]|] w1].
Qed.

(** X9. [get_current_user] is read-only: whatever the header and the
    outcome, the world it leaves is the one it found but for at most
    two readings of the clock (one for [nbf], one for [exp]); the
    collection is not written. *)
Theorem get_current_user_read_only
    (authorization : option string) (w : World) :
  ∃ n, (n ≤ 2)%nat
       ∧ (get_current_user cfg authorization w).2 = Nat.iter n tick w.
Proof.
  unfold get_current_user.
  destruct (not_bearer authorization);
    [by exists 0%nat; split; [lia|]|].
  unfold bind at 1, lift at 1.
  destruct (index_1 _) as [token|]; [|by exists 0%nat; split; [lia|]].
  destruct (jwt_decode_ticks token (SECRET_KEY cfg) w) as (n & Hn & Hw).
  exists n. split; [done|]. rewrite <- Hw.
  unfold bind, try_except_JWTError.
  destruct (jwt_decode token (SECRET_KEY cfg) w) as [[payload|e] w1];
    simpl; [|by destruct (is_JWTError e)].
  destruct (negb (truthy (dict_get payload "sub"))); [done|].
  unfold users_col, col_find_one, ret.
  destruct (db w1) eqn:Hdb; cbn; rewrite ?Hdb; cbn; rewrite ?Hdb; [|done].
  cbn. by destruct (negb (doc_opt_truthy _)).
Qed.

(** X10. [get_current_user] resolves a user only from a verified
    token: when it returns, the header was of the bearer scheme, its
    token verified under [SECRET_KEY] to a payload whose [sub] is a
    non-empty string, any integer [exp] of the payload was not before
    the second of a clock reading taken during the request, and the
    user returned is the public form of a record of the collection
    whose email is that [sub]. *)
Theorem get_current_user_sound
    (authorization : option string) (w w' : World) (u : UserOut) :
  get_current_user cfg authorization w = (Ok u, w') →
  ∃ a token claims s col doc,
    authorization = Some a
    ∧ bearer a token
    ∧ jws_verify token (SECRET_KEY cfg) = Some claims
    ∧ claims !! "sub" = Some (VStr s) ∧ s ≠ ""
    ∧ (∀ e, claims !! "exp" = Some (VInt e) →
            ∃ m, (clock_reads w ≤ m)%nat ∧ timegm (clock w m) ≤ e)
    ∧ db w = Some col
    ∧ find_one "email" (VStr s) col = Some doc
    ∧ serialize_user doc = Ok u.
Proof.
  intros H. unfold get_current_user in H.
  destruct (not_bearer authorization) eqn:Hb; [discriminate|].
  destruct authorization as [a|]; [|discriminate]. simpl in H.
  apply bind_Ok_inv in H as (token & w0 & Htok & H).
  apply lift_Ok_inv in Htok as [Htok ->].
  apply bind_Ok_inv in H as (sub & w2 & Htry & H).
  unfold try_except_JWTError in Htry. unfold bind at 1 in Htry.
  destruct (jwt_decode token (SECRET_KEY cfg) w) as [[payload|e] w1]
    eqn:Hdec; [|by destruct (is_JWTError e)].
  destruct (negb (truthy (dict_get payload "sub"))) eqn:Hsub;
    [discriminate|].
  apply negb_false_iff in Hsub.
  pose proof (jwt_decode_later token (SECRET_KEY cfg) w) as [Hdb1 _].
  rewrite Hdec in Hdb1. simpl in Hdb1.
  unfold bind, users_col, col_find_one, ret in Htry.
  destruct (db w1) as [col|] eqn:Hcol; simpl in Htry; [|discriminate].
  rewrite Hcol in Htry. injection Htry as Hs Hw. subst sub w2.
  rewrite (bind_Ok _ _ _ _ _ (users_col_Some _ _ Hcol)) in H.
  rewrite (bind_Ok _ _ _ _ _ (col_find_one_Some _ _ _ _ Hcol)) in H.
  destruct (find_one "email" (dict_get payload "sub") col) as [doc|]
    eqn:Hdoc; [|discriminate].
  destruct (negb (doc_opt_truthy (Some doc))); [discriminate|].
  apply lift_Ok_inv in H as [Hser _]. simpl in Hser.
  unfold jwt_decode in Hdec.
  destruct (jws_verify token (SECRET_KEY cfg)) as [claims|] eqn:Hver;
    [|discriminate].
  apply bind_Ok_inv in Hdec as ([] & w3 & Hval & Hret).
  injection Hret as <- <-.
  unfold dict_get in Hsub, Hdoc.
  destruct (claims !! "sub") as [v|] eqn:Hv; [|discriminate].
  pose proof (validate_claims_Ok_sub claims w w3 v Hval Hv) as Hstr.
  destruct v as [| | | |s| |]; try discriminate. simpl in Hsub, Hdoc.
  exists a, token, claims, s, col, doc.
  repeat split; try done.
  - intros ->. discriminate.
  - intros e He. by apply (validate_claims_Ok_exp claims w w3).
Qed.

(** ** What /auth/me does not depend on *)

Lemma jwt_decode_with_col (token key : string) (w : World) (col : list Doc) :
  jwt_decode token key (with_col w col)
  = ((jwt_decode token key w).1, with_col (jwt_decode token key w).2 col).
Proof.
  unfold jwt_decode. destruct (jws_verify token key) as [claims|]; [|done].
  unfold bind. rewrite validate_claims_with_col.
  by destruct (validate_claims claims w) as [[[]|] w1].
Qed.

Lemma matches_email_public_eq (v : Value) (d d' : Doc) :
  public_eq d d' → matches "email" v d = matches "email" v d'.
Proof. intros (_ & He & _). unfold matches. by rewrite He. Qed.

Lemma find_one_email_public_eq (v : Value) (col col' : list Doc) :
  Forall2 public_eq col col' →
  option_Forall2 public_eq (find_one "email" v col) (find_one "email" v col').
Proof.
  unfold find_one. induction 1 as [|d d' col col' Hd _ IH]; simpl.
  - constructor.
  - rewrite <- (matches_email_public_eq v d d' Hd).
    destruct (matches "email" v d); [by constructor | done].
Qed.

Lemma serialize_user_public_eq (d d' : Doc) :
  public_eq d d' → serialize_user d = serialize_user d'.
Proof.
  intros (Hi & He & Hn). unfold serialize_user, dict_get.
  by rewrite Hi, He, Hn.
Qed.

(** X11. The answer of /auth/me does not depend on the private fields
    of the stored records: with the same header and the same clock, two
    collections whose records agree, one by one, on [_id], [email] and
    [name] give the same answer, whatever their [password_hash],
    timestamps and [is_active] are. *)
Theorem me_ignores_private_fields
    (authorization : option string) (w : World) (col col' : list Doc) :
  db w = Some col →
  Forall2 public_eq col col' →
  (get_auth_me cfg authorization (with_col w col')).1
  = (get_auth_me cfg authorization w).1.
Proof.
  intros Hdb Hpub.
  assert ((get_current_user cfg authorization (with_col w col')).1
          = (get_current_user cfg authorization w).1) as Heq.
  { destruct (not_bearer authorization) eqn:Hb;
      [by unfold get_current_user; rewrite Hb|].
    destruct authorization as [a|]; [|discriminate].
    destruct (index_1 (split_space_1 a)) as [token|e] eqn:Htok;
      [|by unfold get_current_user; rewrite Hb; simpl; rewrite Htok].
    pose proof (jwt_decode_with_col token (SECRET_KEY cfg) w col') as Hdec'.
    destruct (jwt_decode token (SECRET_KEY cfg) w) as [[payload|e] w1]
      eqn:Hdec; simpl in Hdec'.
    - destruct (truthy (dict_get payload "sub")) eqn:Hsub.
      + rewrite (get_current_user_by_email cfg a token w w1 payload col
                   (conj Hb Htok) Hdec Hsub Hdb).
        rewrite (get_current_user_by_email cfg a token (with_col w col')
                   (with_col w1 col') payload col'
                   (conj Hb Htok) Hdec' Hsub eq_refl).
        destruct (find_one_email_public_eq (dict_get payload "sub")
                    col col' Hpub) as [d d' Hd|]; [|done].
        simpl. symmetry. by apply serialize_user_public_eq.
      + unfold get_current_user. rewrite Hb. simpl. rewrite Htok.
        unfold bind, lift, try_except_JWTError.
        by rewrite Hdec', Hdec, Hsub.
    - unfold get_current_user. rewrite Hb. simpl. rewrite Htok.
      unfold bind, lift, try_except_JWTError.
      rewrite Hdec', Hdec. by destruct (is_JWTError e). }
  unfold get_auth_me, me, bind, ret.
  destruct (get_current_user cfg authorization w) as [[u|e] w1],
    (get_current_user cfg authorization (with_col w col')) as [[u'|e'] w1'];
    simpl in *; congruence.
Qed.

(** ** Failure cases of the resolver and of the handlers *)

(** X12. A token that verifies, is not expired, and names an email
    that no record of the collection carries (an account that is gone)
    is refused with 401 "User not found", after one reading of the
    clock. *)
Theorem get_current_user_unknown_user
    (token s : string) (e : Z) (w : World) (col : list Doc) :
  jws_verify token (SECRET_KEY cfg)
    = Some (<["exp" := VInt e]> {[ "sub" := VStr s ]}) →
  s ≠ "" →
  timegm (clock w (clock_reads w)) ≤ e →
  db w = Some col →
  find_one "email" (VStr s) col = None →
  get_current_user cfg (Some ("Bearer " ++ token)) w
  = (Raise (HTTPException 401 "User not found"), tick w).
Proof.
  intros Hver Hs Hnow Hdb Hnone.
  assert (jwt_decode token (SECRET_KEY cfg) w
          = (Ok (<["exp" := VInt e]> {[ "sub" := VStr s ]}), tick w))
    as Hdec.
  { unfold jwt_decode. rewrite Hver. unfold bind.
    rewrite validate_claims_sub_exp.
    by rewrite (proj2 (Z.ltb_ge _ _) Hnow). }
  assert (dict_get (<["exp" := VInt e]> {[ "sub" := VStr s ]}) "sub"
          = VStr s) as Hsub by done.
  rewrite (get_current_user_by_email cfg _ token w (tick w) _ col
             (bearer_intro token) Hdec); [|by rewrite Hsub; destruct s|done].
  by rewrite Hsub, Hnone.
Qed.

(** X13. Without a database ([db] is [None]) [register] and [login]
    answer 500 "Database not available" and leave the world untouched:
    no salt is drawn, the clock is not read.  The resolver checks the
    token first: only a token that decodes to a payload with a truthy
    [sub] gets as far as the same 500. *)
Theorem no_database (w : World) :
  db w = None →
  (∀ body, register cfg body w
           = (Raise (HTTPException 500 "Database not available"), w))
  ∧ (∀ body, login cfg body w
             = (Raise (HTTPException 500 "Database not available"), w))
  ∧ (∀ a token payload w1,
       bearer a token →
       jwt_decode token (SECRET_KEY cfg) w = (Ok payload, w1) →
       truthy (dict_get payload "sub") = true →
       get_current_user cfg (Some a) w
       = (Raise (HTTPException 500 "Database not available"), w1)).
Proof.
  intros Hdb. split; [|split].
  - intros body. by apply register_no_db.
  - intros body. by apply login_no_db.
  - intros a token payload w1 [Hb Htok] Hdec Hsub.
    assert (db w1 = None) as Hdb1.
    { pose proof (jwt_decode_later token (SECRET_KEY cfg) w) as [Hl _].
      rewrite Hdec in Hl. simpl in Hl. congruence. }
    unfold get_current_user. rewrite Hb. simpl. rewrite Htok.
    unfold bind at 1, lift at 1. unfold bind at 1, try_except_JWTError.
    unfold bind at 1. rewrite Hdec, Hsub. simpl.
    by rewrite (bind_Raise _ _ _ _ _ (users_col_None _ Hdb1)).
Qed.

(** ** The expiry of issued tokens *)

Lemma intdate_claims_lookup (claims : Doc) (k : string) :
  foldr (λ k c, alter intdate k c) claims ["exp"; "iat"; "nbf"] !! k
  = if bool_decide (k ∈ ["exp"; "iat"; "nbf"])
    then intdate <$> claims !! k else claims !! k.
Proof.
  simpl. rewrite !lookup_alter.
  repeat case_decide; subst; case_bool_decide as Hk; try done.
  all: try (exfalso; apply Hk; rewrite !elem_of_cons; by auto).
  all: rewrite !elem_of_cons, elem_of_nil in Hk; intuition congruence.
Qed.

(** [create_access_token] once the lifetime is known: OverflowError
    when the expiry is no datetime, else the signer is called on the
    caller's claims with [exp] set. *)
Lemma create_access_token_expire
    (data : Doc) (delta : option Z) (w : World) (lifetime : Z) :
  match delta with
  | Some d => if Z.eqb d 0 then timedelta (ACCESS_TOKEN_EXPIRE_MINUTES cfg)
              else Ok d
  | None => timedelta (ACCESS_TOKEN_EXPIRE_MINUTES cfg)
  end = Ok lifetime →
  create_access_token cfg data delta w
  = (if in_datetime_range (clock w (clock_reads w) + lifetime)
     then jws_sign
            (foldr (λ k c, alter intdate k c)
               (<["exp" := VDatetime (clock w (clock_reads w) + lifetime)]>
                  data)
               ["exp"; "iat"; "nbf"])
            (SECRET_KEY cfg)
     else Raise OverflowError, tick w).
Proof.
  intros Hl. unfold create_access_token.
  rewrite (bind_Ok _ _ _ _ _ (datetime_now_eq w)).
  unfold bind at 1, lift at 1. rewrite Hl.
  unfold bind, lift, datetime_add.
  by destruct (in_datetime_range _).
Qed.

(** X14. [create_access_token] always sets the expiry itself.  The
    lifetime is [expires_delta], or the configured number of minutes
    when [expires_delta] is absent or is a zero timedelta.  When the
    configured lifetime is no timedelta, or the clock reading plus the
    lifetime is no datetime, the function raises OverflowError after
    having read the clock.  Otherwise what it hands to the signer are
    the caller's claims with [exp] replaced by the whole second of the
    clock reading plus the lifetime: an [exp] passed in by the caller
    is lost, and claims other than the three time claims are passed
    on unchanged. *)
Theorem create_access_token_sets_exp
    (data : Doc) (delta : option Z) (w : World) :
  let now := clock w (clock_reads w) in
  let configured := timedelta_minutes (ACCESS_TOKEN_EXPIRE_MINUTES cfg) in
  ∃ (lifetime : Z) (fits : bool),
    (delta = None ∨ delta = Some 0 →
     lifetime = configured ∧ fits = in_timedelta_range configured)
    ∧ (∀ d, delta = Some d → d ≠ 0 → lifetime = d ∧ fits = true)
    ∧ if (fits && in_datetime_range (now + lifetime))%bool
      then
        ∃ claims,
          create_access_token cfg data delta w
          = (jws_sign claims (SECRET_KEY cfg), tick w)
          ∧ claims !! "exp" = Some (VInt (timegm (now + lifetime)))
          ∧ (∀ k, k ∉ ["exp"; "iat"; "nbf"] → claims !! k = data !! k)
      else
        create_access_token cfg data delta w = (Raise OverflowError, tick w).
Proof.
  intros now configured.
  assert (∀ lifetime,
            match delta with
            | Some d =>
                if Z.eqb d 0 then timedelta (ACCESS_TOKEN_EXPIRE_MINUTES cfg)
                else Ok d
            | None => timedelta (ACCESS_TOKEN_EXPIRE_MINUTES cfg)
            end = Ok lifetime →
            if in_datetime_range (now + lifetime)
            then
              ∃ claims,
                create_access_token cfg data delta w
                = (jws_sign claims (SECRET_KEY cfg), tick w)
                ∧ claims !! "exp" = Some (VInt (timegm (now + lifetime)))
                ∧ (∀ k, k ∉ ["exp"; "iat"; "nbf"] →
                        claims !! k = data !! k)
            else
              create_access_token cfg data delta w
              = (Raise OverflowError, tick w)) as Hfits.
  { intros lifetime Hl.
    rewrite (create_access_token_expire data delta w lifetime Hl).
    fold now. destruct (in_datetime_range (now + lifetime)); [|done].
    eexists. split; [reflexivity|]. split.
    - rewrite intdate_claims_lookup.
      rewrite bool_decide_eq_true_2 by (rewrite !elem_of_cons; auto).
      by rewrite lookup_insert_eq.
    - intros k Hk. rewrite intdate_claims_lookup.
      rewrite bool_decide_eq_false_2 by done.
      apply lookup_insert_ne. intros <-. apply Hk. by left. }
  assert (in_timedelta_range configured = false →
          (delta = None ∨ delta = Some 0) →
          create_access_token cfg data delta w
          = (Raise OverflowError, tick w)) as Hno.
  { intros Hr Hd. unfold create_access_token.
    rewrite (bind_Ok _ _ _ _ _ (datetime_now_eq w)).
    unfold bind at 1, lift at 1, timedelta. fold configured.
    by destruct Hd as [-> | ->]; simpl; rewrite Hr. }
  assert (in_timedelta_range configured = true →
          timedelta (ACCESS_TOKEN_EXPIRE_MINUTES cfg) = Ok configured)
    as Hyes by (by unfold timedelta; fold configured; intros ->).
  destruct delta as [d|].
  - destruct (Z.eqb_spec d 0) as [-> | Hd].
    + exists configured, (in_timedelta_range configured).
      split; [done|]. split; [by intros ? [= <-]|].
      destruct (in_timedelta_range configured) eqn:Hr; simpl.
      * apply Hfits. simpl. by apply Hyes.
      * apply Hno; auto.
    + exists d, true. split; [by intros [|[=]]|].
      split; [by intros ? [= <-]|]. simpl. by apply Hfits.
  - exists configured, (in_timedelta_range configured).
    split; [done|]. split; [done|].
    destruct (in_timedelta_range configured) eqn:Hr; simpl.
    + apply Hfits. by apply Hyes.
    + apply Hno; auto.
Qed.

(** ** The stored record and the AuthUser schema *)

(** X15. The record that a successful [register] appends to the
    collection satisfies the [AuthUser] schema of schemas.py: it
    validates, whatever pydantic does with values of other types, to
    the validated email of the answer, the hash that was computed, the
    name of the request, the two clock readings cut to milliseconds,
    and [is_active] true. *)
Theorem register_stores_AuthUser
    (datetime_coerce : Value → option Z) (bool_coerce : Value → option bool)
    (body : RegisterBody) (w w' : World) (r : TokenOut) :
  register cfg body w = (Ok r, w') →
  ∃ col stored h,
    db w' = Some (col ++ [stored])%list
    ∧ bcrypt_hash (salts w (salt_count w)) (reg_password body) = Ok h
    ∧ validate_AuthUser datetime_coerce bool_coerce stored
      = Some (mkAuthUser (email (user r)) h (reg_name body)
                (Some (clock w (clock_reads w) `div` 1000 * 1000))
                (Some (clock w (S (clock_reads w)) `div` 1000 * 1000))
                true).
Proof.
  intros H.
  destruct (db w) as [col|] eqn:Hdb;
    [|by rewrite (register_no_db body w Hdb) in H].
  destruct (find_one "email" (VStr (reg_email body)) col) as [d|] eqn:Hfree;
    [by rewrite (register_taken body w col d Hdb Hfree) in H|].
  rewrite (register_fresh body w col Hdb Hfree) in H.
  destruct (bcrypt_hash (salts w (salt_count w)) (reg_password body))
    as [h|] eqn:Hh; [|discriminate].
  cbv zeta in H.
  destruct (find_one "_id" (VObjectId (oids w (oid_count w))) col);
    [discriminate|].
  destruct (email_validate (reg_email body)) as [e|] eqn:He;
    [|discriminate].
  destruct (expiry_representable cfg _); [|discriminate].
  destruct (jws_sign _ (SECRET_KEY cfg)) as [token|]; [|discriminate].
  injection H as <- <-. eexists col, _, h.
  split; [reflexivity|]. split; [done|].
  unfold validate_AuthUser, dict_get, new_user_doc.
  set (stored := bson_value <$> _).
  assert (stored !! "email" = Some (VStr (reg_email body))) as -> by done.
  assert (stored !! "password_hash" = Some (VStr h)) as -> by done.
  assert (stored !! "name" = Some (opt_str_value (reg_name body))) as ->.
  { unfold stored. rewrite lookup_fmap.
    assert (∀ (d : Doc) v, d !! "name" = Some v →
              bson_value <$> d !! "name" = Some (bson_value v)) as Hn
      by (by intros ?? ->).
    rewrite (Hn _ (opt_str_value (reg_name body))) by done.
    by destruct (reg_name body). }
  assert (stored !! "created_at"
          = Some (VDatetime (clock w (clock_reads w) `div` 1000 * 1000)))
    as -> by done.
  assert (stored !! "updated_at"
          = Some (VDatetime (clock w (S (clock_reads w)) `div` 1000 * 1000)))
    as -> by done.
  assert (stored !! "is_active" = Some (VBool true)) as -> by done.
  simpl. rewrite He. simpl. by destruct (reg_name body).
Qed.

(** ** The scheme of the header *)

Lemma lower_bearer_scheme (scheme token : string) :
  lower scheme = "bearer" → bearer (scheme ++ " " ++ token) token.
Proof.
  intros H.
  do 6 (destruct scheme as [|? scheme]; [discriminate|]).
  destruct scheme; [|discriminate].
  simpl in H. injection H as H0 H1 H2 H3 H4 H5.
  split.
  - unfold not_bearer, startswith. simpl.
    rewrite H0, H1, H2, H3, H4, H5. simpl. by rewrite prefix_empty.
  - simpl.
    rewrite (ascii_lower_letter_not_space a "b") by done.
    rewrite (ascii_lower_letter_not_space a0 "e") by done.
    rewrite (ascii_lower_letter_not_space a1 "a") by done.
    rewrite (ascii_lower_letter_not_space a2 "r") by done.
    rewrite (ascii_lower_letter_not_space a3 "e") by done.
    by rewrite (ascii_lower_letter_not_space a4 "r") by done.
Qed.

(** X18. The scheme of the Authorization header is read without
    regard to case: a header made of any spelling of "bearer", one
    space and a token is handled exactly as [Bearer <token>]. *)
Theorem get_current_user_scheme_any_case
    (scheme token : string) (w : World) :
  lower scheme = "bearer" →
  get_current_user cfg (Some (scheme ++ " " ++ token)) w
  = get_current_user cfg (Some ("Bearer " ++ token)) w.
Proof.
  intros H.
  destruct (lower_bearer_scheme scheme token H) as [Hb Htok].
  destruct (bearer_intro token) as [Hb' Htok'].
  unfold get_current_user. rewrite Hb, Hb'.
  cbn [default from_option Datatypes.id]. by rewrite Htok, Htok'.
Qed.

Lemma prefix_length (p s : string) :
  String.prefix p s = true → (String.length p ≤ String.length s)%nat.
Proof.
  revert s. induction p as [|c p IH]; intros [|c' s]; simpl;
    try lia; try discriminate.
  destruct (ascii_dec c c'); [|discriminate].
  intros H. specialize (IH s H). lia.
Qed.

Lemma lower_length (s : string) : String.length (lower s) = String.length s.
Proof. induction s as [|c s IH]; simpl; congruence. Qed.

(** X19. A header that is absent or shorter than seven characters
    (the empty string, "Bearer" without a token) is refused with 401
    "Not authenticated"; the token library, the clock and the
    collection are not consulted. *)
Theorem get_current_user_short_header
    (authorization : option string) (w : World) :
  (∀ a, authorization = Some a → (String.length a < 7)%nat) →
  get_current_user cfg authorization w
  = (Raise (HTTPException 401 "Not authenticated"), w).
Proof.
  intros Hshort. unfold get_current_user.
  destruct authorization as [a|]; [|done].
  specialize (Hshort a eq_refl).
  assert (not_bearer (Some a) = true) as ->; [|done].
  unfold not_bearer, startswith. apply orb_true_iff. right.
  apply negb_true_iff.
  destruct (String.prefix "bearer " (lower a)) eqn:Hp; [|done].
  apply prefix_length in Hp. rewrite lower_length in Hp. simpl in Hp. lia.
Qed.

End Further.


(** ** The /test endpoint *)

Lemma str_slice_to_len (n : nat) (s : string) :
  (str_len (str_slice_to n s) ≤ n)%nat.
Proof.
  revert n. induction s as [|c s IH]; intros n; simpl; [lia|].
  destruct (utf8_continuation c) eqn:Hc; simpl.
  - rewrite Hc. apply IH.
  - destruct n as [|n]; simpl; [lia|]. rewrite Hc. specialize (IH n). lia.
Qed.

(** [s[:n]] is a prefix of [s]: all of it, or [n] characters of it
    with the next character left out whole. *)
Lemma str_slice_to_prefix (n : nat) (s : string) :
  ∃ rest,
    s = (str_slice_to n s ++ rest)%string
    ∧ (rest = ""
       ∨ str_len (str_slice_to n s) = n
         ∧ ∃ c r, rest = String c r ∧ utf8_continuation c = false).
Proof.
  revert n. induction s as [|c s IH]; intros n; simpl.
  - exists "". by split; [|left].
  - destruct (utf8_continuation c) eqn:Hc.
    + destruct (IH n) as (rest & Hs & Hrest). exists rest. split.
      * exact (f_equal (String c) Hs).
      * destruct Hrest as [-> | [Hl Hr]]; [by left|right].
        split; [|done]. simpl. by rewrite Hc.
    + destruct n as [|n].
      * exists (String c s). split; [done|]. right. split; [done|]. eauto.
      * destruct (IH n) as (rest & Hs & Hrest). exists rest. split.
        -- exact (f_equal (String c) Hs).
        -- destruct Hrest as [-> | [Hl Hr]]; [by left|right].
           split; [|done]. simpl. rewrite Hc. lia.
Qed.

(** X16. The report of /test lists at most ten collections, the first
    ten that the database names; [connection_status] is "Connected"
    exactly when there is a database handle; and [database] never
    keeps its initial value: it ends as "Connected & Working" when
    the collections could be listed, as "Available but not
    initialized" when there is no handle, and when listing raised as
    "Connected but Error: " followed by the first fifty characters of
    the error text, a prefix of that text that is all of it or stops
    after fifty whole characters. *)
Theorem test_database_report
    (dbh : option Database) (getenv : string → option string) :
  (length (collections (test_database dbh getenv)) ≤ 10)%nat
  ∧ (∀ d names, dbh = Some d → list_collection_names d = inr names →
       collections (test_database dbh getenv) = take 10 names
       ∧ database (test_database dbh getenv) = "✅ Connected & Working")
  ∧ (connection_status (test_database dbh getenv) = "Connected"
     ↔ dbh ≠ None)
  ∧ database (test_database dbh getenv) ≠ "❌ Not Available"
  ∧ (dbh = None →
     database (test_database dbh getenv)
     = "⚠️  Available but not initialized")
  ∧ (∀ d e, dbh = Some d → list_collection_names d = inl e →
       ∃ msg rest,
         e = (msg ++ rest)%string
         ∧ (str_len msg ≤ 50)%nat
         ∧ (rest = ""
            ∨ str_len msg = 50%nat
              ∧ ∃ c r, rest = String c r ∧ utf8_continuation c = false)
         ∧ database (test_database dbh getenv)
           = ("⚠️  Connected but Error: " ++ msg)%string).
Proof.
  unfold test_database, test_database_try.
  destruct dbh as [[n [msg|names]]|]; cbn -[str_slice_to];
    (split; [|split; [|split; [|split; [|split]]]]).
  - lia.
  - by intros ?? [= <-].
  - done.
  - done.
  - done.
  - intros ? e [= <-] [= <-].
    destruct (str_slice_to_prefix 50 msg) as (rest & He & Hrest).
    exists (str_slice_to 50 msg), rest.
    split; [done|]. split; [apply str_slice_to_len|]. by split.
  - rewrite length_take. lia.
  - by intros ?? [= <-] [= <-].
  - done.
  - done.
  - done.
  - by intros ?? [= <-].
  - lia.
  - by intros ?? [=].
  - split; [discriminate | by intros []].
  - done.
  - done.
  - by intros ?? [=].
Qed.

(** A listing error whose text is sixty times the letter é (two bytes
    each): the report keeps fifty of them, one hundred bytes. *)
Example test_database_error_text :
  let e := String.concat "" (repeat "é" 60) in
  let d := {| db_name := None; list_collection_names := inl e |} in
  str_len e = 60%nat
  ∧ database (test_database (Some d) (λ _, None))
    = ("⚠️  Connected but Error: " ++ String.concat "" (repeat "é" 50))%string
  ∧ String.length (String.concat "" (repeat "é" 50)) = 100%nat.
Proof. repeat split; by vm_compute. Qed.

(** X17. The fields [database_url] and [database_name] of the /test
    report say only whether the environment variables DATABASE_URL and
    DATABASE_NAME are set to a non-empty value: what the handler wrote
    there from the database handle, its name included, is overwritten,
    so two handles give the same two fields. *)
Theorem test_database_env_fields
    (dbh dbh' : option Database) (getenv : string → option string) :
  database_url (test_database dbh getenv)
  = Some (if env_truthy getenv "DATABASE_URL"
          then "✅ Set" else "❌ Not Set")
  ∧ database_name (test_database dbh getenv)
    = Some (if env_truthy getenv "DATABASE_NAME"
            then "✅ Set" else "❌ Not Set")
  ∧ database_url (test_database dbh getenv)
    = database_url (test_database dbh' getenv)
  ∧ database_name (test_database dbh getenv)
    = database_name (test_database dbh' getenv).
Proof.
  unfold test_database, test_database_try.
  destruct dbh as [[n [msg|names]]|], dbh' as [[n' [msg'|names']]|];
    by repeat split.
Qed.

(** * Witnesses of the further properties *)

Section FurtherWitnesses.
Import Sim.

Lemma register_a_run :
  register default_config body_a world0
  = (Ok (mkTokenOut token_a "bearer"
           (mkUserOut "a5f0c0ffee00000000000000" "a@x.com" None)),
     tick (with_col (stamped world0) [user_a])).
Proof.
  rewrite (register_fresh default_config body_a world0 [] eq_refl eq_refl).
  reflexivity.
Qed.

Lemma register_success_witness :
  register default_config body_a world0
  = (Ok (mkTokenOut token_a "bearer"
           (mkUserOut "a5f0c0ffee00000000000000" "a@x.com" None)),
     tick (with_col (stamped world0) [user_a]))
  ∧ ∃ col h e,
      db world0 = Some col
      ∧ find_one "email" (VStr "a@x.com") col = None
      ∧ bcrypt_hash (salts world0 (salt_count world0)) "pw1" = Ok h
      ∧ email_validate "a@x.com" = Some e
      ∧ db (tick (with_col (stamped world0) [user_a]))
        = Some (col ++ [bson_value <$>
                          <["_id" := VObjectId (oids world0 (oid_count world0))]>
                            (new_user_doc body_a h
                               (clock world0 (clock_reads world0))
                               (clock world0 (S (clock_reads world0))))])%list
      ∧ mkUserOut "a5f0c0ffee00000000000000" "a@x.com" None
        = mkUserOut (oids world0 (oid_count world0)) e None
      ∧ "bearer" = "bearer"
      ∧ jws_sign
          (<["exp" := VInt (timegm
                              (clock world0 (S (S (clock_reads world0)))
                               + timedelta_minutes
                                   (ACCESS_TOKEN_EXPIRE_MINUTES
                                      default_config)))]>
             {[ "sub" := VStr e ]})
          (SECRET_KEY default_config) = Ok token_a
      ∧ clock_reads (tick (with_col (stamped world0) [user_a]))
        = S (S (S (clock_reads world0))).
Proof.
  exact (conj register_a_run
           (register_success default_config body_a world0 _ _
              register_a_run)).
Defined.

Lemma register_preserves_unique_emails_witness :
  unique_emails (db world_ac)
  ∧ unique_emails
      (db (register default_config (mkRegisterBody "b@x.com" "pw2" None)
             world_ac).2).
Proof.
  assert (unique_emails (db world_ac)) as H1.
  { cbv [unique_emails db world_ac]. compute_done. }
  exact (conj H1
           (register_preserves_unique_emails default_config
              (mkRegisterBody "b@x.com" "pw2" None) world_ac H1)).
Defined.

Lemma login_a_run :
  login default_config (mkLoginBody "a@x.com" "pw1") world_ac
  = (Ok (mkTokenOut token_a "bearer"
           (mkUserOut "a5f0c0ffee00000000000000" "a@x.com" None)),
     tick world_ac).
Proof.
  rewrite (login_found default_config (mkLoginBody "a@x.com" "pw1")
             world_ac [user_a; user_c] user_a eq_refl eq_refl).
  reflexivity.
Qed.

Lemma login_sound_witness :
  login default_config (mkLoginBody "a@x.com" "pw1") world_ac
  = (Ok (mkTokenOut token_a "bearer"
           (mkUserOut "a5f0c0ffee00000000000000" "a@x.com" None)),
     tick world_ac)
  ∧ ∃ col doc,
      db world_ac = Some col
      ∧ find_one "email" (VStr "a@x.com") col = Some doc
      ∧ verify_password "pw1"
          (dict_get_default doc "password_hash" (VStr "")) = Ok true
      ∧ serialize_user doc
        = Ok (mkUserOut "a5f0c0ffee00000000000000" "a@x.com" None)
      ∧ "bearer" = "bearer"
      ∧ jws_sign (issued_claims default_config "a@x.com" world_ac)
          (SECRET_KEY default_config) = Ok token_a
      ∧ tick world_ac = tick world_ac.
Proof.
  exact (conj login_a_run
           (login_sound default_config _ world_ac _ _ login_a_run)).
Defined.

Lemma register_then_login_witness :
  register default_config body_a world0
  = (Ok (mkTokenOut token_a "bearer"
           (mkUserOut "a5f0c0ffee00000000000000" "a@x.com" None)),
     tick (with_col (stamped world0) [user_a]))
  ∧ bcrypt_hash (salts world0 (salt_count world0)) "pw1"
    = Ok "$2b$12$abcdefghijklmnopqrstuvpw1"
  ∧ bcrypt_identify "$2b$12$abcdefghijklmnopqrstuvpw1" = true
  ∧ bcrypt_verify "pw1" "$2b$12$abcdefghijklmnopqrstuvpw1" = Ok true
  ∧ jws_sign
      (issued_claims default_config "a@x.com"
         (tick (with_col (stamped world0) [user_a])))
      (SECRET_KEY default_config) = Ok token_a
  ∧ login default_config (mkLoginBody "a@x.com" "pw1")
      (tick (with_col (stamped world0) [user_a]))
    = (Ok (mkTokenOut token_a "bearer"
             (mkUserOut "a5f0c0ffee00000000000000" "a@x.com" None)),
       tick (tick (with_col (stamped world0) [user_a]))).
Proof.
  assert (bcrypt_hash (salts world0 (salt_count world0)) "pw1"
          = Ok "$2b$12$abcdefghijklmnopqrstuvpw1") as H2 by reflexivity.
  assert (bcrypt_identify "$2b$12$abcdefghijklmnopqrstuvpw1" = true)
    as H3 by reflexivity.
  assert (bcrypt_verify "pw1" "$2b$12$abcdefghijklmnopqrstuvpw1" = Ok true)
    as H4 by reflexivity.
  assert (jws_sign
            (issued_claims default_config "a@x.com"
               (tick (with_col (stamped world0) [user_a])))
            (SECRET_KEY default_config) = Ok token_a) as H5
    by (vm_compute; reflexivity).
  exact (conj register_a_run (conj H2 (conj H3 (conj H4 (conj H5
    (register_then_login default_config body_a world0 _ _ _ _
       register_a_run H2 H3 H4 H5)))))).
Defined.

Lemma register_then_me_witness :
  register default_config body_a world0
  = (Ok (mkTokenOut token_a "bearer"
           (mkUserOut "a5f0c0ffee00000000000000" "a@x.com" None)),
     tick (with_col (stamped world0) [user_a]))
  ∧ "a@x.com" = reg_email body_a
  ∧ reg_email body_a ≠ ""
  ∧ jws_verify token_a (SECRET_KEY default_config)
    = Some (issued_claims default_config "a@x.com" (tick (tick world0)))
  ∧ timegm (clock (tick (with_col (stamped world0) [user_a]))
              (clock_reads (tick (with_col (stamped world0) [user_a]))))
    ≤ expiry default_config (tick (tick world0))
  ∧ get_current_user default_config (Some ("Bearer " ++ token_a))
      (tick (with_col (stamped world0) [user_a]))
    = (Ok (mkUserOut "a5f0c0ffee00000000000000" "a@x.com" None),
       tick (tick (with_col (stamped world0) [user_a]))).
Proof.
  assert ("a@x.com" = reg_email body_a) as H2 by reflexivity.
  assert (reg_email body_a ≠ "") as H3 by discriminate.
  assert (jws_verify token_a (SECRET_KEY default_config)
          = Some (issued_claims default_config "a@x.com"
                    (tick (tick world0)))) as H4
    by (vm_compute; reflexivity).
  assert (timegm (clock (tick (with_col (stamped world0) [user_a]))
                    (clock_reads
                       (tick (with_col (stamped world0) [user_a]))))
          ≤ expiry default_config (tick (tick world0))) as H5
    by (vm_compute; discriminate).
  exact (conj register_a_run (conj H2 (conj H3 (conj H4 (conj H5
    (register_then_me default_config body_a world0 _ _
       register_a_run H2 H3 H4 H5)))))).
Defined.

Lemma bearer_header_token_witness :
  not_bearer (Some "bEaReR abc def") = false
  ∧ ∃ scheme token,
      "bEaReR abc def" = (scheme ++ " " ++ token)%string
      ∧ lower scheme = "bearer"
      ∧ index_1 (split_space_1 "bEaReR abc def") = Ok token.
Proof.
  assert (not_bearer (Some "bEaReR abc def") = false) as H1 by reflexivity.
  exact (conj H1 (bearer_header_token "bEaReR abc def" H1)).
Defined.

Lemma get_current_user_a_run :
  get_current_user default_config (Some ("Bearer " ++ token_a)) world_ac
  = (Ok (mkUserOut "a5f0c0ffee00000000000000" "a@x.com" None),
     tick world_ac).
Proof. reflexivity. Qed.

Lemma get_current_user_sound_witness :
  get_current_user default_config (Some ("Bearer " ++ token_a)) world_ac
  = (Ok (mkUserOut "a5f0c0ffee00000000000000" "a@x.com" None),
     tick world_ac)
  ∧ ∃ a token claims s col doc,
      Some ("Bearer " ++ token_a)%string = Some a
      ∧ bearer a token
      ∧ jws_verify token (SECRET_KEY default_config) = Some claims
      ∧ claims !! "sub" = Some (VStr s) ∧ s ≠ ""
      ∧ (∀ e, claims !! "exp" = Some (VInt e) →
              ∃ m, (clock_reads world_ac ≤ m)%nat
                   ∧ timegm (clock world_ac m) ≤ e)
      ∧ db world_ac = Some col
      ∧ find_one "email" (VStr s) col = Some doc
      ∧ serialize_user doc
        = Ok (mkUserOut "a5f0c0ffee00000000000000" "a@x.com" None).
Proof.
  exact (conj get_current_user_a_run
           (get_current_user_sound default_config _ world_ac _ _
              get_current_user_a_run)).
Defined.

Lemma me_ignores_private_fields_witness :
  db world_ac = Some [user_a; user_c]
  ∧ Forall2 public_eq [user_a; user_c]
      [<["password_hash" := VStr "another hash"]>
         (<["is_active" := VBool false]> user_a); user_c]
  ∧ (get_auth_me default_config (Some ("Bearer " ++ token_a))
       (with_col world_ac
          [<["password_hash" := VStr "another hash"]>
             (<["is_active" := VBool false]> user_a); user_c])).1
    = (get_auth_me default_config (Some ("Bearer " ++ token_a)) world_ac).1.
Proof.
  assert (db world_ac = Some [user_a; user_c]) as H1 by reflexivity.
  assert (Forall2 public_eq [user_a; user_c]
            [<["password_hash" := VStr "another hash"]>
               (<["is_active" := VBool false]> user_a); user_c]) as H2.
  { repeat constructor. }
  exact (conj H1 (conj H2
    (me_ignores_private_fields default_config _ world_ac _ _ H1 H2))).
Defined.

Lemma get_current_user_unknown_user_witness :
  jws_verify "dev-secret-change-me|1700003600|gone@x.com"
    (SECRET_KEY default_config)
  = Some (<["exp" := VInt 1700003600]> {[ "sub" := VStr "gone@x.com" ]})
  ∧ "gone@x.com" ≠ ""
  ∧ timegm (clock world_ac (clock_reads world_ac)) ≤ 1700003600
  ∧ db world_ac = Some [user_a; user_c]
  ∧ find_one "email" (VStr "gone@x.com") [user_a; user_c] = None
  ∧ get_current_user default_config
      (Some ("Bearer " ++ "dev-secret-change-me|1700003600|gone@x.com"))
      world_ac
    = (Raise (HTTPException 401 "User not found"), tick world_ac).
Proof.
  assert (jws_verify "dev-secret-change-me|1700003600|gone@x.com"
            (SECRET_KEY default_config)
          = Some (<["exp" := VInt 1700003600]>
                    {[ "sub" := VStr "gone@x.com" ]})) as H1
    by (vm_compute; reflexivity).
  assert ("gone@x.com" ≠ "") as H2 by discriminate.
  assert (timegm (clock world_ac (clock_reads world_ac)) ≤ 1700003600)
    as H3 by (vm_compute; discriminate).
  assert (db world_ac = Some [user_a; user_c]) as H4 by reflexivity.
  assert (find_one "email" (VStr "gone@x.com") [user_a; user_c] = None)
    as H5 by reflexivity.
  exact (conj H1 (conj H2 (conj H3 (conj H4 (conj H5
    (get_current_user_unknown_user default_config _ _ _ world_ac _
       H1 H2 H3 H4 H5)))))).
Defined.

Lemma no_database_witness :
  db (set_db world0 None) = None
  ∧ register default_config body_a (set_db world0 None)
    = (Raise (HTTPException 500 "Database not available"),
       set_db world0 None)
  ∧ login default_config (mkLoginBody "a@x.com" "pw1") (set_db world0 None)
    = (Raise (HTTPException 500 "Database not available"),
       set_db world0 None).
Proof.
  assert (db (set_db world0 None) = None) as H1 by reflexivity.
  pose proof (no_database default_config (set_db world0 None) H1)
    as (Hreg & Hlogin & _).
  exact (conj H1 (conj (Hreg body_a)
                    (Hlogin (mkLoginBody "a@x.com" "pw1")))).
Defined.

Lemma register_stores_AuthUser_witness :
  register default_config body_a world0
  = (Ok (mkTokenOut token_a "bearer"
           (mkUserOut "a5f0c0ffee00000000000000" "a@x.com" None)),
     tick (with_col (stamped world0) [user_a]))
  ∧ ∃ col stored h,
      db (tick (with_col (stamped world0) [user_a]))
      = Some (col ++ [stored])%list
      ∧ bcrypt_hash (salts world0 (salt_count world0)) "pw1" = Ok h
      ∧ validate_AuthUser (λ _, None) (λ _, None) stored
        = Some (mkAuthUser "a@x.com" h None
                  (Some (clock world0 (clock_reads world0) `div` 1000 * 1000))
                  (Some (clock world0 (S (clock_reads world0))
                         `div` 1000 * 1000))
                  true).
Proof.
  exact (conj register_a_run
           (register_stores_AuthUser default_config (λ _, None) (λ _, None)
              body_a world0 _ _ register_a_run)).
Defined.

Lemma get_current_user_scheme_any_case_witness :
  lower "BeArEr" = "bearer"
  ∧ get_current_user default_config (Some ("BeArEr" ++ " " ++ token_a))
      world_ac
    = get_current_user default_config (Some ("Bearer " ++ token_a)) world_ac.
Proof.
  assert (lower "BeArEr" = "bearer") as H1 by reflexivity.
  exact (conj H1
           (get_current_user_scheme_any_case default_config "BeArEr"
              token_a world_ac H1)).
Defined.

Lemma get_current_user_short_header_witness :
  (∀ a, Some "Bearer" = Some a → (String.length a < 7)%nat)
  ∧ get_current_user default_config (Some "Bearer") world_ac
    = (Raise (HTTPException 401 "Not authenticated"), world_ac).
Proof.
  assert (∀ a, Some "Bearer" = Some a → (String.length a < 7)%nat) as H1.
  { intros a [= <-]. simpl. lia. }
  exact (conj H1
           (get_current_user_short_header default_config (Some "Bearer")
              world_ac H1)).
Defined.

End FurtherWitnesses.
